(** * C-PAC BIDS-App runner (run.py): configuration resolution and dispatch

    A shallow embedding of the module-level script of [run.py] (Python 2:
    line 107 is a print statement), from the return of [parse_args] at
    line 101 to the [sys.exit] of line 326.  The script is straight-line
    code with early exits, so it is embedded as a program in a
    trace-and-abort monad: every [print], shell command, file write and
    collaborator call is an event, and [sys.exit] or an uncaught exception
    ends the run.  What the script reads from the machine (the file
    system, the YAML documents, the BIDS layout, the clock) and what its
    collaborators answer is a record, [World].

    The development has four parts: Python strings, values and the monad;
    the script, block by block, with the source lines of each block; facts
    about the blocks (what they write, what they return); and the
    properties of the runs, each with a run that shows it. *)

From Stdlib Require Import ZArith QArith Ascii String.
From stdpp Require Import base strings gmap list.

Set Warnings "-register-all".
Set Default Proof Using "Type".
Local Open Scope Z_scope.
Local Open Scope string_scope.

(** ** Python strings *)

Module PyStr.

Definition is_upper (c : ascii) : bool :=
  let n := nat_of_ascii c in (65 <=? n)%nat && (n <=? 90)%nat.

Definition lower_ascii (c : ascii) : ascii :=
  if is_upper c then ascii_of_nat (nat_of_ascii c + 32) else c.

(** [s.lower()] on a byte string in the C locale. *)
Fixpoint lower (s : string) : string :=
  match s with
  | EmptyString => EmptyString
  | String c s' => String (lower_ascii c) (lower s')
  end.

(** [s.startswith(p)] *)
Fixpoint startswith (p s : string) : bool :=
  match p, s with
  | EmptyString, _ => true
  | String a p', String b s' => Ascii.eqb a b && startswith p' s'
  | String _ _, EmptyString => false
  end.

(** [p in s] *)
Fixpoint contains (p s : string) : bool :=
  startswith p s ||
  match s with
  | EmptyString => false
  | String _ s' => contains p s'
  end.

Fixpoint char_in (c : ascii) (chars : string) : bool :=
  match chars with
  | EmptyString => false
  | String d chars' => Ascii.eqb c d || char_in c chars'
  end.

(** [s.lstrip(chars)]: drops leading characters that occur in [chars];
    [chars] is a set of characters, not a prefix. *)
Fixpoint lstrip (chars s : string) : string :=
  match s with
  | EmptyString => EmptyString
  | String c s' => if char_in c chars then lstrip chars s' else s
  end.

Fixpoint endswith_slash (s : string) : bool :=
  match s with
  | EmptyString => false
  | String c EmptyString => Ascii.eqb c "/"
  | String _ s' => endswith_slash s'
  end.

(** [os.path.join(a, b)] of posixpath, two components. *)
Definition path_join (a b : string) : string :=
  if startswith "/" b then b
  else if String.eqb a "" || endswith_slash a then a ++ b
  else a ++ "/" ++ b.

End PyStr.
Import PyStr.

(** ** Exceptions, outcomes *)

Inductive exn :=
  | NameError (name : string)
  | AttributeError (type attr : string)
  | TypeError (what : string)
  | KeyError (key : string)
  | ValueError (what : string)
  | OverflowError
  | IOError (what : string)
  | CollaboratorError (who : string).

(** How the process ends: [sys.exit(code)] or an uncaught exception. *)
Inductive outcome :=
  | Exit (code : Z)
  | Raised (e : exn).

(** The interpreter turns an uncaught exception into exit status 1. *)
Definition exit_status (o : outcome) : Z :=
  match o with
  | Exit code => code
  | Raised _ => 1
  end.

(** ** The numeric builtins the script calls

    [int(str)], [float(str)], float division and [int(float)] belong to the
    interpreter.  They are taken as an interface; nothing below depends on
    how a particular string parses or how a double rounds. *)

(** The type of Python floats. *)
Class PyFloat := pyfloat : Type.

Class PyRuntime `{PyFloat} := {
  (** [int(s)] for a string; [None] is ValueError. *)
  int_of_str : string -> option Z;
  (** [float(s)] for a string; [None] is ValueError. *)
  float_of_str : string -> option pyfloat;
  (** [x / y] on floats with [y] nonzero. *)
  float_div : pyfloat -> pyfloat -> pyfloat;
  (** the literals [1024.0] and [6.0] *)
  float_1024 : pyfloat;
  float_6 : pyfloat;
  (** [int(x)] for a float; it raises on infinities and NaN. *)
  int_of_float : pyfloat -> exn + Z;
}.

(** ** Python values *)

Section Values.
Context `{PyFloat}.

(** YAML documents and the values the script builds.  Mappings are keyed
    by strings; [VObj] stands for an object without data of interest
    (a module, a function, the parser, a file handle). *)
Inductive pyval :=
  | VNone
  | VBool (b : bool)
  | VInt (z : Z)
  | VFloat (f : pyfloat)
  | VStr (s : string)
  | VList (l : list pyval)
  | VDict (d : gmap string pyval)
  | VSet (s : gset string)
  | VObj (descr : string).

(** What the run does that can be observed from outside. *)
Inductive event :=
  | PrintArgs                                  (* line 103 *)
  | Print (fmt : string) (vals : list pyval)   (* print fmt.format(vals) *)
  | Shell (cmd : string)                       (* run(cmd) *)
  | GuiRun                                     (* CPAC.GUI.run() *)
  | WriteYaml (path : string) (doc : pyval)    (* yaml.dump(doc, open(path, 'w')) *)
  | EngineRun (config_file data_config_file plugin : string)
              (n_procs memory_gb : Z).         (* CPAC.pipeline.cpac_runner.run *)

(** ** The script monad: events so far, then a value or the end of the run *)

Definition M (A : Type) : Type := list event * (A + outcome).

Definition ret {A} (a : A) : M A := ([], inl a).

Definition bind {A B} (m : M A) (f : A -> M B) : M B :=
  match m with
  | (tr, inl a) => let '(tr', r) := f a in ((tr ++ tr')%list, r)
  | (tr, inr o) => (tr, inr o)
  end.

Definition emit (e : event) : M unit := ([e], inl tt).
Definition raise {A} (e : exn) : M A := ([], inr (Raised e)).
Definition sys_exit {A} (code : Z) : M A := ([], inr (Exit code)).

Definition lift_option {A} (o : option A) (e : exn) : M A :=
  match o with
  | Some a => ret a
  | None => raise e
  end.

Definition lift_sum {A} (r : exn + A) : M A :=
  match r with
  | inr a => ret a
  | inl e => raise e
  end.

End Values.

Arguments M {_} A.

Declare Scope py_scope.
Delimit Scope py_scope with py.
Notation "x <- m ;; k" := (bind m (fun x => k))
  (at level 100, m at next level, right associativity) : py_scope.
Notation "m ;;; k" := (bind m (fun _ => k))
  (at level 100, right associativity) : py_scope.
Local Open Scope py_scope.

(** ** Command line and environment *)

Inductive level := participant | group | test_config | GUI.

(** The namespace returned by [parser.parse_args()] (line 101).  Options
    without [type=] are strings; without a default they are [None]. *)
Record Args := {
  bids_dir : string;
  output_dir : string;
  analysis_level : level;
  pipeline_file : string;
  data_config_file : option string;
  aws_input_creds : option string;
  aws_output_creds : option string;
  n_cpus : string;
  mem_mb : option string;
  mem_gb : option string;
  save_working_dir : bool;
  disable_file_logging : bool;
  participant_label : option (list string);
  participant_ndx : option string;
  bids_validator_config : option string;
  skip_bids_validator : bool;
}.

(** [if x:] for an optional string: [None] and the empty string are false. *)
Definition arg_given (o : option string) : option string :=
  match o with
  | Some s => if String.eqb s "" then None else Some s
  | None => None
  end.

(** [if args.participant_label:] for a list or [None]. *)
Definition labels_given (o : option (list string)) : option (list string) :=
  match o with
  | Some (x :: l) => Some (x :: l)
  | _ => None
  end.

(** [nl] is the newline that starts two of the messages. *)
Definition nl : string := String (ascii_of_nat 10) EmptyString.

Section Script.
Context `{PyRuntime}.

(** What the script reads from outside itself, and how its collaborators
    answer.  [Some e] and [inl e] stand for the call raising [e]. *)
Record World := {
  version : string;                          (* line 12 *)
  path_exists : string -> bool;              (* os.path.exists *)
  path_isfile : string -> bool;              (* os.path.isfile *)
  realpath : string -> string;               (* os.path.realpath *)
  yaml_load : string -> exn + pyval;         (* yaml.load(open(path, 'r')) *)
  open_w : string -> option exn;             (* open(path, 'w') *)
  st : string;                               (* line 209, %Y%m%d%H%M%S *)
  bids_layout : string -> exn + list string; (* BIDSLayout(dir), its get_subjects() *)
  import_cpac : option exn;                  (* import CPAC *)
  gui_run : option exn;                      (* CPAC.GUI.run() *)
  import_nipype : option exn;                (* line 312 *)
  engine_run : string -> string -> option exn; (* CPAC.pipeline.cpac_runner.run *)
}.

Definition check_exn (o : option exn) : M unit :=
  match o with
  | None => ret tt
  | Some e => raise e
  end.

(** *** Operations on values *)

(** [d[k]] on a mapping *)
Definition dict_get (d : gmap string pyval) (k : string) : M pyval :=
  lift_option (d !! k) (KeyError k).

(** [v[k]] with a string [k]: only a mapping takes a string subscript. *)
Definition subscript (v : pyval) (k : string) : M pyval :=
  match v with
  | VDict d => dict_get d k
  | VList _ => raise (TypeError "list indices must be integers, not str")
  | _ => raise (TypeError "subscript")
  end.

(** [v[k] = x] with a string [k] *)
Definition setitem (v : pyval) (k : string) (x : pyval) : M pyval :=
  match v with
  | VDict d => ret (VDict (<[k := x]> d))
  | _ => raise (TypeError "item assignment")
  end.

(** The first item assignment (line 142) needs a mapping. *)
Definition expect_mapping (v : pyval) : M (gmap string pyval) :=
  match v with
  | VDict d => ret d
  | _ => raise (TypeError "item assignment")
  end.

(** [len(v)] *)
Definition py_len (v : pyval) : M Z :=
  match v with
  | VList l => ret (Z.of_nat (length l))
  | VStr s => ret (Z.of_nat (String.length s))
  | VDict d => ret (Z.of_nat (size d))
  | VSet s => ret (Z.of_nat (size s))
  | _ => raise (TypeError "len")
  end.

(** [int(v)] *)
Definition py_int (v : pyval) : M Z :=
  match v with
  | VInt z => ret z
  | VBool b => ret (if b then 1 else 0)
  | VStr s => lift_option (int_of_str s) (ValueError "int")
  | VFloat f => lift_sum (int_of_float f)
  | _ => raise (TypeError "int")
  end.

(** [int(s)] and [float(s)] of a command-line string *)
Definition int_arg (s : string) : M Z :=
  lift_option (int_of_str s) (ValueError "int").

Definition float_arg (s : string) : M pyfloat :=
  lift_option (float_of_str s) (ValueError "float").

(** The methods of [set] that take a set and return one.  A name outside
    this table that is looked up for such a call is an AttributeError;
    [intersect] is no attribute of [set]. *)
Definition set_method (name : string)
  : option (gset string -> gset string -> gset string) :=
  if String.eqb name "intersection" then Some (fun a b => a ∩ b)
  else if String.eqb name "union" then Some (fun a b => a ∪ b)
  else if String.eqb name "difference" then Some (fun a b => a ∖ b)
  else if String.eqb name "symmetric_difference"
    then Some (fun a b => (a ∖ b) ∪ (b ∖ a))
  else None.

Definition call_set_method (name : string) (a b : gset string)
  : M (gset string) :=
  match set_method name with
  | Some f => ret (f a b)
  | None => raise (AttributeError "set" name)
  end.

(** The names of Python 2.7's [__builtin__] module. *)
Definition builtin_names : list string :=
  [ "ArithmeticError"; "AssertionError"; "AttributeError"; "BaseException";
    "BufferError"; "BytesWarning"; "DeprecationWarning"; "EOFError";
    "Ellipsis"; "EnvironmentError"; "Exception"; "False";
    "FloatingPointError"; "FutureWarning"; "GeneratorExit"; "IOError";
    "ImportError"; "ImportWarning"; "IndentationError"; "IndexError";
    "KeyError"; "KeyboardInterrupt"; "LookupError"; "MemoryError";
    "NameError"; "None"; "NotImplemented"; "NotImplementedError"; "OSError";
    "OverflowError"; "PendingDeprecationWarning"; "ReferenceError";
    "RuntimeError"; "RuntimeWarning"; "StandardError"; "StopIteration";
    "SyntaxError"; "SyntaxWarning"; "SystemError"; "SystemExit"; "TabError";
    "True"; "TypeError"; "UnboundLocalError"; "UnicodeDecodeError";
    "UnicodeEncodeError"; "UnicodeError"; "UnicodeTranslateError";
    "UnicodeWarning"; "UserWarning"; "ValueError"; "Warning";
    "ZeroDivisionError"; "__debug__"; "__doc__"; "__import__"; "__name__";
    "__package__"; "abs"; "all"; "any"; "apply"; "basestring"; "bin"; "bool";
    "buffer"; "bytearray"; "bytes"; "callable"; "chr"; "classmethod"; "cmp";
    "coerce"; "compile"; "complex"; "copyright"; "credits"; "delattr";
    "dict"; "dir"; "divmod"; "enumerate"; "eval"; "execfile"; "exit"; "file";
    "filter"; "float"; "format"; "frozenset"; "getattr"; "globals";
    "hasattr"; "hash"; "help"; "hex"; "id"; "input"; "int"; "intern";
    "isinstance"; "issubclass"; "iter"; "len"; "license"; "list"; "locals";
    "long"; "map"; "max"; "memoryview"; "min"; "next"; "object"; "oct";
    "open"; "ord"; "pow"; "print"; "property"; "quit"; "range"; "raw_input";
    "reduce"; "reload"; "repr"; "reversed"; "round"; "set"; "setattr";
    "slice"; "sorted"; "staticmethod"; "str"; "sum"; "super"; "tuple";
    "type"; "unichr"; "unicode"; "vars"; "xrange"; "zip" ].

Definition builtin_value (x : string) : option pyval :=
  if String.eqb x "True" then Some (VBool true)
  else if String.eqb x "False" then Some (VBool false)
  else if String.eqb x "None" then Some VNone
  else if existsb (String.eqb x) builtin_names then Some (VObj "builtin")
  else None.

(** Loading a global name: the module namespace first, then the
    builtins; a name in neither is a NameError. *)
Definition load_name (ns : gmap string pyval) (x : string) : M pyval :=
  match ns !! x with
  | Some v => ret v
  | None => lift_option (builtin_value x) (NameError x)
  end.

(** A value used as a mapping key; mappings are keyed by strings here. *)
Definition as_key (v : pyval) : M string :=
  match v with
  | VStr s => ret s
  | _ => raise (TypeError "key")
  end.

(** A dict display [{x1: v1, ..., xn: vn}] whose keys are names: the
    items are evaluated from left to right, each key by loading its
    name.  The values here are evaluated without effect. *)
Fixpoint dict_display (ns : gmap string pyval)
    (items : list (string * pyval)) (acc : gmap string pyval)
  : M (gmap string pyval) :=
  match items with
  | [] => ret acc
  | (x, v) :: items' =>
      kv <- load_name ns x ;;
      k <- as_key kv ;;
      dict_display ns items' (<[k := v]> acc)
  end.

(** *** The script, block by block *)

Section Blocks.
Variable a : Args.
Variable w : World.

(** ["s3://" not in args.output_dir.lower()] (lines 144, 180, 212, 301) *)
Definition output_is_local : bool :=
  negb (contains "s3://" (lower a.(output_dir))).

(** lines 105-111 *)
Definition gui_branch : M unit :=
  match a.(analysis_level) with
  | GUI =>
      emit (Print "Starting CPAC GUI" []) ;;;
      check_exn w.(import_cpac) ;;;
      emit GuiRun ;;;
      check_exn w.(gui_run) ;;;
      sys_exit 1
  | _ => ret tt
  end.

(** lines 113-121 *)
Definition check_directories : M unit :=
  (if negb (startswith "s3://" (lower a.(bids_dir)))
      && negb (w.(path_exists) a.(bids_dir))
   then emit (Print "Error! Could not find {0}" [VStr a.(bids_dir)]) ;;;
        sys_exit 0
   else ret tt) ;;;
  (if negb (startswith "s3://" (lower a.(output_dir)))
      && negb (w.(path_exists) a.(output_dir))
   then emit (Print "Error! Could not find {0}" [VStr a.(output_dir)]) ;;;
        sys_exit 0
   else ret tt).

(** lines 123-133; [run] prints what the validator prints and returns
    when the validator has ended, which it is taken to do. *)
Definition validate_input : M unit :=
  match arg_given a.(bids_validator_config) with
  | Some config =>
      emit (Print (nl ++ "Running BIDS validator") []) ;;;
      emit (Shell ("bids-validator --config " ++ config ++ " "
                   ++ a.(bids_dir)))
  | None =>
      if a.(skip_bids_validator)
      then emit (Print "skipping bids-validator..." [])
      else emit (Print (nl ++ "Running BIDS validator") []) ;;;
           emit (Shell ("bids-validator " ++ a.(bids_dir)))
  end.

(** line 137 and the type test implied by line 142 *)
Definition load_pipeline_config : M (gmap string pyval) :=
  doc <- lift_sum (w.(yaml_load) (w.(realpath) a.(pipeline_file))) ;;
  expect_mapping doc.

(** lines 142-149 *)
Definition set_directories (d : gmap string pyval) : gmap string pyval :=
  let d := <["outputDirectory" := VStr (path_join a.(output_dir) "output")]> d in
  if output_is_local then
    let d := <["crashLogDirectory" := VStr (path_join a.(output_dir) "crash")]> d in
    <["logDirectory" := VStr (path_join a.(output_dir) "log")]> d
  else
    let d := <["crashLogDirectory" := VStr (path_join "/scratch" "crash")]> d in
    <["logDirectory" := VStr (path_join "/scratch" "log")]> d.

(** lines 151-156 *)
Definition set_memory (d : gmap string pyval) : M (gmap string pyval) :=
  match arg_given a.(mem_gb) with
  | Some gb =>
      x <- float_arg gb ;;
      ret (<["maximumMemoryPerParticipant" := VFloat x]> d)
  | None =>
      match arg_given a.(mem_mb) with
      | Some mb =>
          x <- float_arg mb ;;
          ret (<["maximumMemoryPerParticipant" := VFloat (float_div x float_1024)]> d)
      | None =>
          ret (<["maximumMemoryPerParticipant" := VFloat float_6]> d)
      end
  end.

(** lines 158-160 *)
Definition set_cores (d : gmap string pyval) : M (gmap string pyval) :=
  n <- int_arg a.(n_cpus) ;;
  let d := <["maxCoresPerParticipant" := VInt n]> d in
  let d := <["numParticipantsAtOnce" := VInt 1]> d in
  n' <- int_arg a.(n_cpus) ;;
  v <- dict_get d "num_ants_threads" ;;
  t <- py_int v ;;
  ret (<["num_ants_threads" := VInt (Z.min n' t)]> d).

(** lines 162-172 *)
Definition set_credentials (d : gmap string pyval) : M (gmap string pyval) :=
  d <- match arg_given a.(aws_input_creds) with
       | Some c =>
           if w.(path_isfile) c
           then ret (<["awsCredentialsFile" := VStr c]> d)
           else raise (IOError ("Could not find aws credentials " ++ c))
       | None => ret d
       end ;;
  match arg_given a.(aws_output_creds) with
  | Some c =>
      if w.(path_isfile) c
      then ret (<["awsOutputBucketCredentials" := VStr c]> d)
      else raise (IOError ("Could not find aws credentials " ++ c))
  | None => ret d
  end.

(** lines 174-177 *)
Definition set_logging (d : gmap string pyval) : gmap string pyval :=
  if a.(disable_file_logging)
  then <["disable_log" := VBool true]> d
  else <["disable_log" := VBool false]> d.

(** lines 179-189 *)
Definition set_working_dir (d : gmap string pyval) : M (gmap string pyval) :=
  if a.(save_working_dir) then
    if output_is_local then
      let d := <["removeWorkingDir" := VBool false]> d in
      ret (<["workingDirectory" := VStr (path_join a.(output_dir) "working")]> d)
    else
      emit (Print ("Cannot write working directory to S3 bucket."
                   ++ " Either change the output directory to something"
                   ++ " local or turn off the --removeWorkingDir flag") []) ;;;
      ret d
  else
    let d := <["removeWorkingDir" := VBool true]> d in
    ret (<["workingDirectory" := VStr (path_join "/scratch" "working")]> d).

(** lines 142-189: the overrides applied to the loaded document *)
Definition override_merger (d : gmap string pyval) : M (gmap string pyval) :=
  let d := set_directories d in
  d <- set_memory d ;;
  d <- set_cores d ;;
  d <- set_credentials d ;;
  let d := set_logging d in
  set_working_dir d.

Definition print_item (fmt : string) (d : gmap string pyval) (k : string)
  : M unit :=
  v <- dict_get d k ;;
  emit (Print fmt [v]).

(** lines 191-205 *)
Definition report (d : gmap string pyval) : M unit :=
  match labels_given a.(participant_label) with
  | Some l => emit (Print "#### Running C-PAC on {0}" [VList (VStr <$> l)])
  | None => emit (Print "#### Running C-PAC" [])
  end ;;;
  print_item "Number of participants to run in parallel: {0}" d "numParticipantsAtOnce" ;;;
  emit (Print "Input directory: {0}" [VStr a.(bids_dir)]) ;;;
  print_item "Output directory: {0}" d "outputDirectory" ;;;
  print_item "Working directory: {0}" d "workingDirectory" ;;;
  print_item "Crash directory: {0}" d "crashLogDirectory" ;;;
  print_item "Log directory: {0}" d "logDirectory" ;;;
  print_item "Remove working directory: {0}" d "removeWorkingDir" ;;;
  print_item "Available memory: {0} (GB)" d "maximumMemoryPerParticipant" ;;;
  print_item "Available threads: {0}" d "maxCoresPerParticipant" ;;;
  print_item "Number of threads for ANTs: {0}" d "num_ants_threads".

(** The directory that receives the two artifacts (lines 212-215 and
    301-304). *)
Definition artifact_path (name : string) : string :=
  if output_is_local
  then path_join a.(output_dir) name
  else path_join "/scratch" name.

(** lines 212-215 *)
Definition config_file : string :=
  artifact_path ("cpac_pipeline_config_" ++ w.(st) ++ ".yml").

(** lines 217-218 and 306-307 *)
Definition write_yaml (path : string) (doc : pyval) : M unit :=
  check_exn (w.(open_w) path) ;;;
  emit (WriteYaml path doc).

(** lines 220-227 *)
Definition group_branch : M unit :=
  match a.(analysis_level) with
  | group =>
      emit (Print "Starting group level analysis of data in {0} using {1}"
              [VStr a.(bids_dir); VStr config_file]) ;;;
      sys_exit 0
  | _ => ret tt
  end.

(** The module namespace when line 234 runs: the names every module
    has, and what lines 2-233 have imported, defined and assigned.
    ([CPAC] is imported only on the GUI branch, which has left.) *)
Definition module_namespace (d : gmap string pyval) : gmap string pyval :=
  list_to_map
    [ ("__name__", VStr "__main__"); ("__doc__", VNone);
      ("__package__", VNone); ("__builtins__", VObj "module");
      ("__file__", VObj "str");
      ("argparse", VObj "module"); ("os", VObj "module");
      ("subprocess", VObj "module"); ("yaml", VObj "module");
      ("sys", VObj "module"); ("BIDSLayout", VObj "class");
      ("datetime", VObj "module"); ("time", VObj "module");
      ("__version__", VStr w.(version)); ("run", VObj "function");
      ("parser", VObj "ArgumentParser"); ("args", VObj "Namespace");
      ("pipeline_config", VDict d); ("ts", VObj "float");
      ("st", VStr w.(st)); ("config_file", VStr config_file);
      ("f", VObj "file"); ("layout", VObj "BIDSLayout") ].

(** lines 245-262: the subject list.  [list(s)] of a set is in an
    order of the interpreter's choosing, here that of [elements]. *)
Definition select_subjects (subjects_bids : gset string) : M (list string) :=
  match labels_given a.(participant_label) with
  | Some labels =>
      let subjects_selected : gset string :=
        list_to_set (lstrip "sub-" <$> labels) in
      subjects_torun <-
        call_set_method "intersect" subjects_bids subjects_selected ;;
      let subjects_missing := subjects_selected ∖ subjects_torun in
      (if bool_decide (subjects_missing = ∅) then ret tt
       else emit (Print "participant_label has subjects not in the bids directory: {}"
                    [VSet subjects_missing])) ;;;
      ret ((fun sub => "sub-" ++ sub) <$> elements subjects_torun)
  | None =>
      ret ((fun sub => "sub-" ++ sub) <$> elements subjects_bids)
  end.

(** lines 230-268: the manifest from a scan of [bids_dir] *)
Definition scan_manifest (d : gmap string pyval) : M pyval :=
  layout <- lift_sum (w.(bids_layout) a.(bids_dir)) ;;
  data_config <-
    dict_display (module_namespace d)
      [ ("dataFormat", VList [VStr "BIDS"]);
        ("bidsBaseDir", VStr a.(bids_dir));
        ("outputSubjectListLocation", VStr a.(output_dir));
        ("subjectListName", VList [VStr "bids_sublist"]) ] ∅ ;;
  let data_config :=
    match arg_given a.(aws_input_creds) with
    | Some c => <["awsCredentialsFile" := VStr c]> data_config
    | None => data_config
    end in
  let subjects_bids : gset string := list_to_set layout in
  subjects <- select_subjects subjects_bids ;;
  match subjects with
  | [] => emit (Print "Did not find any files to process" []) ;;;
          sys_exit 1
  | _ :: _ =>
      ret (VDict (<["subjectList" := VList (VStr <$> subjects)]> data_config))
  end.

(** lines 229-271 *)
Definition resolve_manifest (d : gmap string pyval) : M pyval :=
  match arg_given a.(data_config_file) with
  | None => scan_manifest d
  | Some file => lift_sum (w.(yaml_load) (w.(realpath) file))
  end.

(** lines 288-299: the data configuration after index selection and
    the name of its file *)
Definition index_selection (data_config : pyval) : M (pyval * string) :=
  match arg_given a.(participant_ndx) with
  | Some ndx =>
      i <- int_arg ndx ;;
      in_range <-
        (if (0 <=? i)%Z then
           l <- subscript data_config "subjectList" ;;
           k <- py_len l ;;
           ret (i <? k)%Z
         else ret false) ;;
      if in_range : bool then
        l <- subscript data_config "subjectList" ;;
        x <- subscript l ndx ;;
        data_config <- setitem data_config "subjectList" (VList [x]) ;;
        ret (data_config,
             "cpac_data_config_pt" ++ ndx ++ "_" ++ w.(st) ++ ".yml")
      else
        i <- int_arg ndx ;;
        l <- subscript data_config "subjectList" ;;
        k <- py_len l ;;
        emit (Print "Participant ndx {0} is out of bounds [0,{1})"
                [VInt i; VInt k]) ;;;
        sys_exit 1
  | None =>
      ret (data_config, "cpac_data_config_" ++ w.(st) ++ ".yml")
  end.

(** lines 309-326 *)
Definition dispatch (d : gmap string pyval) (data_config_file : string)
  : M unit :=
  match a.(analysis_level) with
  | participant =>
      check_exn w.(import_cpac) ;;;
      check_exn w.(import_nipype) ;;;
      v <- dict_get d "maxCoresPerParticipant" ;;
      n_procs <- py_int v ;;
      v <- dict_get d "maximumMemoryPerParticipant" ;;
      memory_gb <- py_int v ;;
      emit (Print "Starting participant level processing" []) ;;;
      emit (EngineRun config_file data_config_file "MultiProc"
              n_procs memory_gb) ;;;
      check_exn (w.(engine_run) config_file data_config_file)
  | _ =>
      emit (Print ("This has been a test run, the pipeline and data configuration files should"
                   ++ " have been written to {0} and {1} respectively."
                   ++ " CPAC will not be run.")
              [VStr config_file; VStr data_config_file])
  end ;;;
  sys_exit 0.

(** *** The script in its parts *)

(** lines 103-205: up to the resolved pipeline configuration *)
Definition configure : M (gmap string pyval) :=
  emit PrintArgs ;;;
  gui_branch ;;;
  check_directories ;;;
  validate_input ;;;
  d <- load_pipeline_config ;;
  d <- override_merger d ;;
  report d ;;;
  ret d.

(** lines 229-307: the data configuration, resolved and written;
    returns the path of its file *)
Definition manifest (d : gmap string pyval) : M string :=
  data_config <- resolve_manifest d ;;
  selected <- index_selection data_config ;;
  let '(data_config, name) := selected in
  let data_config_file := artifact_path name in
  write_yaml data_config_file data_config ;;;
  ret data_config_file.

(** lines 103-307: everything before the dispatcher; returns the
    pipeline configuration and the path of the data configuration *)
Definition artifacts : M (gmap string pyval * string) :=
  d <- configure ;;
  write_yaml config_file (VDict d) ;;;
  group_branch ;;;
  data_config_file <- manifest d ;;
  ret (d, data_config_file).

(** lines 103-326 *)
Definition script : M unit :=
  r <- artifacts ;;
  dispatch r.1 r.2.

(** A run: its events and how the process ended. *)
Definition run_script : list event * outcome :=
  match script with
  | (tr, inr o) => (tr, o)
  | (tr, inl _) => (tr, Exit 0)
  end.

End Blocks.

End Script.

(** ** A runtime to evaluate the script with

    Integers are read from an optional sign and decimal digits, floats are
    exact rationals read the same way.  On such inputs, and as long as
    every quotient is a dyadic number of small size, this is what the
    interpreter computes. *)
Module DecimalRuntime.

Fixpoint digits_value (s : string) (acc : Z) : option Z :=
  match s with
  | EmptyString => Some acc
  | String c s' =>
      let n := nat_of_ascii c in
      if (48 <=? n)%nat && (n <=? 57)%nat
      then digits_value s' (10 * acc + Z.of_nat (n - 48))
      else None
  end.

Definition parse_digits (s : string) : option Z :=
  match s with
  | EmptyString => None
  | String _ _ => digits_value s 0
  end.

Definition parse_int (s : string) : option Z :=
  match s with
  | String "-" s' => Z.opp <$> parse_digits s'
  | String "+" s' => parse_digits s'
  | _ => parse_digits s
  end.

Definition float_type : PyFloat := Q.

Definition runtime : @PyRuntime float_type := {|
  int_of_str := parse_int;
  float_of_str := fun s => (fun z => Qmake z 1) <$> parse_int s;
  float_div := fun x y => Qred (Qdiv x y);
  float_1024 := Qmake 1024 1;
  float_6 := Qmake 6 1;
  int_of_float := fun x => inr (Z.quot (Qnum x) (Zpos (Qden x)));
|}.

End DecimalRuntime.

(** ** Facts about strings *)

Section StringFacts.

Lemma startswith_spec (p s : string) :
  startswith p s = true <-> exists v, s = p ++ v.
Proof.
  revert s. induction p as [|a p IH]; intros s; simpl.
  - split; [intros _; by exists s | done].
  - destruct s as [|b s]; simpl.
    + split; [done | intros [v Hv]; discriminate].
    + rewrite andb_true_iff, IH. split.
      * intros [Hab [v ->]]. apply Ascii.eqb_eq in Hab as ->. by exists v.
      * intros [v [= -> ->]]. split; [apply Ascii.eqb_refl | by exists v].
Qed.

(** [contains p s] is the substring test: [p] occurs somewhere in [s]. *)
Lemma contains_spec (p s : string) :
  contains p s = true <-> exists u v, s = u ++ p ++ v.
Proof.
  induction s as [|b s IH]; simpl.
  - rewrite orb_false_r, startswith_spec. split.
    + intros [v Hv]. by exists "", v.
    + intros [u [v Huv]]. destruct u; [by exists v | discriminate].
  - rewrite orb_true_iff, startswith_spec, IH. split.
    + intros [[v Hv] | [u [v ->]]]; [by exists "", v | by exists (String b u), v].
    + intros [u [v Huv]]. destruct u as [|c u]; simpl in Huv.
      * left. by exists v.
      * right. injection Huv as -> ->. by exists u, v.
Qed.

Lemma append_inj_l (u s t : string) : u ++ s = u ++ t -> s = t.
Proof. induction u as [|c u IH]; simpl; [done | intros [= Hst]; auto]. Qed.

Lemma append_assoc (u s t : string) : (u ++ s) ++ t = u ++ s ++ t.
Proof.
  induction u as [|c u IH]; [done|].
  change (String c ((u ++ s) ++ t) = String c (u ++ s ++ t)). by f_equal.
Qed.

(** Joining a directory with a relative name puts the name at the end,
    after a prefix that the directory alone decides. *)
Lemma path_join_relative (dir name : string) :
  startswith "/" name = false ->
  path_join dir name =
    (if String.eqb dir "" || endswith_slash dir then dir else dir ++ "/")
    ++ name.
Proof.
  intros Hrel. unfold path_join. rewrite Hrel.
  destruct (String.eqb dir "" || endswith_slash dir); [done|].
  by rewrite append_assoc.
Qed.

Lemma path_join_inj (dir n1 n2 : string) :
  startswith "/" n1 = false -> startswith "/" n2 = false ->
  path_join dir n1 = path_join dir n2 -> n1 = n2.
Proof.
  intros H1 H2. rewrite !path_join_relative by done. apply append_inj_l.
Qed.

End StringFacts.

(** ** Facts about the monad *)

Section MonadFacts.
Context `{PyRuntime}.

Lemma bind_ret_inv {A B} (m : M A) (f : A -> M B) tr b :
  bind m f = (tr, inl b) ->
  exists tr1 x tr2,
    m = (tr1, inl x) /\ f x = (tr2, inl b) /\ tr = (tr1 ++ tr2)%list.
Proof.
  unfold bind. destruct m as [tr1 [x|o]]; [|done].
  destruct (f x) as [tr2 r] eqn:E. intros [= <- ->]. eauto 10.
Qed.

Lemma bind_run {A B} (m : M A) (f : A -> M B) tr1 x :
  m = (tr1, inl x) -> bind m f = ((tr1 ++ (f x).1)%list, (f x).2).
Proof. intros ->. simpl. by destruct (f x). Qed.

Lemma bind_stop {A B} (m : M A) (f : A -> M B) tr o :
  m = (tr, inr o) -> bind m f = (tr, inr o).
Proof. by intros ->. Qed.

Lemma bind_trace {A B} (P : event -> Prop) (m : M A) (f : A -> M B) :
  Forall P m.1 ->
  (forall tr x, m = (tr, inl x) -> Forall P (f x).1) ->
  Forall P (bind m f).1.
Proof.
  destruct m as [tr [x|o]]; simpl; [|done].
  intros Htr Hf. specialize (Hf tr x eq_refl).
  destruct (f x) as [tr2 r]. simpl in *. by apply Forall_app.
Qed.

Lemma elem_of_bind_trace {A B} (m : M A) (f : A -> M B) (e : event) :
  e ∈ (bind m f).1 ->
  e ∈ m.1 \/ exists tr x, m = (tr, inl x) /\ e ∈ (f x).1.
Proof.
  destruct m as [tr [x|o]]; simpl; [|by left].
  destruct (f x) as [tr2 r] eqn:E. simpl.
  intros [Hin|Hin]%elem_of_app; [by left | right].
  exists tr, x. by rewrite E.
Qed.

Lemma elem_of_bind_l {A B} (m : M A) (f : A -> M B) (e : event) :
  e ∈ m.1 -> e ∈ (bind m f).1.
Proof.
  destruct m as [tr [x|o]]; simpl; [|done].
  destruct (f x) as [tr2 r]. simpl. rewrite elem_of_app. tauto.
Qed.

Lemma elem_of_bind_r {A B} (m : M A) (f : A -> M B) (e : event) tr x :
  m = (tr, inl x) -> e ∈ (f x).1 -> e ∈ (bind m f).1.
Proof.
  intros ->. simpl. destruct (f x) as [tr2 r]. simpl.
  rewrite elem_of_app. tauto.
Qed.

(** Whether a block has returned, rather than ended the run. *)
Definition returns {A} (m : M A) : bool :=
  match m.2 with
  | inl _ => true
  | inr _ => false
  end.

Lemma returns_stop {A} (m : M A) tr o : m = (tr, inr o) -> returns m = false.
Proof. by intros ->. Qed.

Lemma lift_option_inv {A} (o : option A) e tr x :
  lift_option o e = (tr, inl x) -> o = Some x /\ tr = [].
Proof. destruct o; simpl; [by intros [= <- <-] | done]. Qed.

Lemma lift_sum_inv {A} (r : exn + A) tr x :
  lift_sum r = (tr, inl x) -> r = inr x /\ tr = [].
Proof. destruct r; simpl; [done | by intros [= <- <-]]. Qed.

Lemma check_exn_inv (o : option exn) tr u :
  check_exn o = (tr, inl u) -> o = None /\ tr = [].
Proof. destruct o; simpl; [done | by intros [= <- _]]. Qed.

End MonadFacts.

(** ** What the blocks write and whom they call *)

Section Traces.
Context `{PyRuntime}.

(** The two kinds of event that matter after the run: a file written,
    the engine started. *)
Definition is_write (e : event) : bool :=
  match e with
  | WriteYaml _ _ => true
  | _ => false
  end.

Definition is_engine (e : event) : bool :=
  match e with
  | EngineRun _ _ _ _ _ => true
  | _ => false
  end.

Definition quiet (e : event) : Prop :=
  is_write e = false /\ is_engine e = false.

Lemma dict_display_trace ns items acc : (dict_display ns items acc).1 = [].
Proof.
  revert acc. induction items as [|[x v] items IH]; intros acc; [done|].
  simpl. unfold load_name, as_key.
  assert (forall kv : pyval,
            (bind (ret kv) (fun kv => bind
               match kv with
               | VStr s => ret s
               | _ => raise (TypeError "key")
               end (fun k => dict_display ns items (<[k:=v]> acc)))).1 = [])
    as Hkey.
  { intros kv. destruct kv; simpl; try done.
    specialize (IH (<[s:=v]> acc)).
    by destruct (dict_display ns items (<[s:=v]> acc)) as [tr r]; simpl in *; subst. }
  destruct (ns !! x) as [kv|]; [apply Hkey|].
  destruct (builtin_value x) as [kv|]; [apply Hkey | done].
Qed.

End Traces.

Create HintDb blocks.
#[global] Hint Unfold
  gui_branch check_directories validate_input load_pipeline_config
  set_memory set_cores set_credentials set_working_dir override_merger
  print_item report write_yaml group_branch select_subjects scan_manifest
  resolve_manifest index_selection dispatch configure manifest
  dict_get subscript setitem expect_mapping py_len py_int int_arg float_arg
  call_set_method : blocks.

(** One step of a proof that every event of a block satisfies a
    predicate. *)
Ltac trace_step :=
  match goal with
  | |- Forall _ (bind _ _).1 => apply bind_trace; [|intros ? ? _]
  | |- Forall _ (dict_display _ _ _).1 => rewrite dict_display_trace; constructor
  | |- Forall _ (ret _).1 => constructor
  | |- Forall _ (raise _).1 => constructor
  | |- Forall _ (sys_exit _).1 => constructor
  | |- Forall _ (emit _).1 => by repeat constructor
  | |- Forall _ (lift_option ?o _).1 => destruct o; constructor
  | |- Forall _ (lift_sum ?o).1 => destruct o; constructor
  | |- Forall _ (check_exn ?o).1 => destruct o; constructor
  | |- Forall _ (match ?x with _ => _ end).1 => destruct x
  end.

Ltac trace_tac := autounfold with blocks; cbv zeta; repeat trace_step.

Section QuietBlocks.
Context `{PyRuntime}.
Variable a : Args.
Variable w : World.

Lemma configure_quiet : Forall quiet (configure a w).1.
Proof. trace_tac. Qed.

Lemma group_branch_quiet : Forall quiet (group_branch a w).1.
Proof. trace_tac. Qed.

Lemma resolve_manifest_quiet d : Forall quiet (resolve_manifest a w d).1.
Proof. trace_tac. Qed.

Lemma index_selection_quiet dc : Forall quiet (index_selection a w dc).1.
Proof. trace_tac. Qed.

End QuietBlocks.

(** One step of the inversion of a block that has returned. *)
Ltac ok_step :=
  match goal with
  | H : bind _ _ = (_, inl _) |- _ =>
      apply bind_ret_inv in H as (? & ? & ? & ? & ? & ?)
  | H : lift_option _ _ = (_, inl _) |- _ =>
      apply lift_option_inv in H as [? ?]
  | H : lift_sum _ = (_, inl _) |- _ =>
      apply lift_sum_inv in H as [? ?]
  | H : check_exn _ = (_, inl _) |- _ =>
      apply check_exn_inv in H as [? ?]
  | H : ret _ = (_, inl _) |- _ => injection H as ? ?
  | H : emit _ = (_, inl _) |- _ => injection H as ? ?
  | H : raise _ = (_, inl _) |- _ => discriminate H
  | H : sys_exit _ = (_, inl _) |- _ => discriminate H
  | H : match ?x with _ => _ end = (_, inl _) |- _ => destruct x eqn:?
  end.

Ltac ok_inv := repeat (ok_step; simplify_eq).

Section Merger.
Context `{PyRuntime}.
Variable a : Args.
Variable w : World.

(** The memory resolution of lines 151-156, as a relation between the
    command line and the resolved value. *)
Definition memory_resolution (x : pyfloat) : Prop :=
  match arg_given a.(mem_gb) with
  | Some gb => float_of_str gb = Some x
  | None =>
      match arg_given a.(mem_mb) with
      | Some mb => exists y, float_of_str mb = Some y /\ x = float_div y float_1024
      | None => x = float_6
      end
  end.

Lemma set_memory_inv d tr d' :
  set_memory a d = (tr, inl d') ->
  tr = [] /\ exists x,
    memory_resolution x /\ d' = <["maximumMemoryPerParticipant" := VFloat x]> d.
Proof.
  unfold set_memory, float_arg, memory_resolution. intros Hrun.
  ok_inv; split; try done; eauto.
Qed.

Lemma py_int_inv v tr t : py_int v = (tr, inl t) -> tr = [].
Proof. unfold py_int. intros Hrun. ok_inv; done. Qed.

Lemma set_cores_inv d tr d' :
  set_cores a d = (tr, inl d') ->
  tr = [] /\ exists n v t,
    int_of_str a.(n_cpus) = Some n /\
    d !! "num_ants_threads" = Some v /\
    py_int v = ([], inl t) /\
    d' = <["num_ants_threads" := VInt (Z.min n t)]>
           (<["numParticipantsAtOnce" := VInt 1]>
              (<["maxCoresPerParticipant" := VInt n]> d)).
Proof.
  unfold set_cores, int_arg, dict_get. intros Hrun. ok_inv.
  match goal with Hi : py_int _ = _ |- _ =>
    pose proof (py_int_inv _ _ _ Hi) as -> end.
  split; [done|]. eexists _, _, _. repeat split; try eassumption.
  by rewrite !lookup_insert_ne in * by done.
Qed.

Lemma set_credentials_inv d tr d' :
  set_credentials a w d = (tr, inl d') ->
  tr = [] /\ forall k,
    k <> "awsCredentialsFile" -> k <> "awsOutputBucketCredentials" ->
    d' !! k = d !! k.
Proof.
  unfold set_credentials. intros Hrun.
  ok_inv; (split; [done|]); intros k Hk1 Hk2;
    by rewrite ?lookup_insert_ne by done.
Qed.

End Merger.

Section Artifacts.
Context `{PyRuntime}.
Variable a : Args.
Variable w : World.

(** The two shapes of the data configuration's file name (lines 292 and
    299). *)
Definition data_config_name (name : string) : Prop :=
  name = "cpac_data_config_" ++ w.(st) ++ ".yml" \/
  exists ndx, name = "cpac_data_config_pt" ++ ndx ++ "_" ++ w.(st) ++ ".yml".

Lemma index_selection_name dc tr dc' name :
  index_selection a w dc = (tr, inl (dc', name)) -> data_config_name name.
Proof.
  unfold index_selection. intros Hrun.
  destruct (arg_given a.(participant_ndx)) as [ndx|].
  - right. exists ndx. ok_inv; done.
  - left. ok_inv; done.
Qed.

Lemma data_config_name_relative name :
  data_config_name name -> startswith "/" name = false.
Proof. by intros [-> | [ndx ->]]. Qed.

Lemma artifact_path_neq name :
  data_config_name name -> artifact_path a name <> config_file a w.
Proof.
  intros Hname Heq. unfold config_file, artifact_path in Heq.
  assert (name = "cpac_pipeline_config_" ++ w.(st) ++ ".yml") as Hn.
  { destruct (output_is_local a);
      (eapply path_join_inj; [by apply data_config_name_relative | done | done]). }
  destruct Hname as [-> | [ndx ->]]; discriminate Hn.
Qed.

(** An event of the manifest stage: never the engine, and a write only
    of a data configuration file in the artifact directory. *)
Definition manifest_event (e : event) : Prop :=
  is_engine e = false /\
  forall p doc, e = WriteYaml p doc ->
    exists name, data_config_name name /\ p = artifact_path a name.

Lemma quiet_manifest_event e : quiet e -> manifest_event e.
Proof. intros [Hw He]. split; [done|]. by intros p doc ->. Qed.

Lemma manifest_trace d : Forall manifest_event (manifest a w d).1.
Proof.
  unfold manifest. apply bind_trace.
  { eapply Forall_impl; [apply resolve_manifest_quiet | apply quiet_manifest_event]. }
  intros _ dc _. apply bind_trace.
  { eapply Forall_impl; [apply index_selection_quiet | apply quiet_manifest_event]. }
  intros tr [dc' name] Hsel. apply index_selection_name in Hsel.
  unfold write_yaml. repeat trace_step.
  repeat constructor. intros p doc [= <- <-]. by exists name.
Qed.

Lemma dispatch_trace d dcf :
  Forall (fun e => is_write e = false) (dispatch a w d dcf).1.
Proof. trace_tac. Qed.

Lemma run_script_trace : (run_script a w).1 = (script a w).1.
Proof. unfold run_script. by destruct (script a w) as [tr [[]|o]]. Qed.

(** The only document ever written to [config_file] is the resolved
    pipeline configuration. *)
Lemma pipeline_write_inv doc :
  WriteYaml (config_file a w) doc ∈ (run_script a w).1 ->
  exists tr d, configure a w = (tr, inl d) /\ doc = VDict d.
Proof.
  rewrite run_script_trace. unfold script. intros Hin.
  apply elem_of_bind_trace in Hin as [Hin | (tr & r & _ & Hin)]; cycle 1.
  { pose proof (dispatch_trace r.1 r.2) as Hd.
    rewrite Forall_forall in Hd. by apply Hd in Hin. }
  unfold artifacts in Hin.
  apply elem_of_bind_trace in Hin as [Hin | (tr & d & Hconf & Hin)].
  { pose proof configure_quiet a w as Hq.
    rewrite Forall_forall in Hq. by destruct (Hq _ Hin). }
  exists tr, d. split; [done|].
  apply elem_of_bind_trace in Hin as [Hin | (? & ? & _ & Hin)].
  { unfold write_yaml in Hin.
    apply elem_of_bind_trace in Hin as [Hin | (? & ? & _ & Hin)].
    - destruct (open_w w (config_file a w)); simpl in Hin; by apply elem_of_nil in Hin.
    - simpl in Hin. apply list_elem_of_singleton in Hin. by injection Hin. }
  apply elem_of_bind_trace in Hin as [Hin | (? & ? & _ & Hin)].
  { pose proof group_branch_quiet a w as Hq.
    rewrite Forall_forall in Hq. by destruct (Hq _ Hin). }
  apply elem_of_bind_trace in Hin as [Hin | (? & ? & _ & Hin)].
  - pose proof (manifest_trace d) as Hm. rewrite Forall_forall in Hm.
    destruct (Hm _ Hin) as [_ Hw].
    destruct (Hw _ _ eq_refl) as (name & Hname & Hp).
    symmetry in Hp. by apply artifact_path_neq in Hp.
  - simpl in Hin. by apply elem_of_nil in Hin.
Qed.

End Artifacts.

Section Resolved.
Context `{PyRuntime}.
Variable a : Args.
Variable w : World.

Lemma set_working_dir_frame d tr d' k :
  set_working_dir a d = (tr, inl d') ->
  k <> "removeWorkingDir" -> k <> "workingDirectory" ->
  d' !! k = d !! k.
Proof.
  unfold set_working_dir. intros Hrun Hk1 Hk2.
  ok_inv; by rewrite ?lookup_insert_ne by done.
Qed.

Lemma set_logging_frame d k :
  k <> "disable_log" -> set_logging a d !! k = d !! k.
Proof.
  unfold set_logging. intros Hk.
  by destruct a.(disable_file_logging); rewrite lookup_insert_ne.
Qed.

Lemma set_logging_flag d :
  set_logging a d !! "disable_log" = Some (VBool a.(disable_file_logging)).
Proof.
  unfold set_logging.
  by destruct a.(disable_file_logging); rewrite lookup_insert_eq.
Qed.

(** The directory the run treats as the root of its crash and log
    directories and of its two artifacts. *)
Definition control_root : string :=
  if contains "s3://" (lower a.(output_dir)) then "/scratch" else a.(output_dir).

Lemma artifact_path_root name : artifact_path a name = path_join control_root name.
Proof.
  unfold artifact_path, output_is_local, control_root.
  by destruct (contains "s3://" (lower a.(output_dir))).
Qed.

Lemma set_directories_lookup d :
  set_directories a d !! "crashLogDirectory"
    = Some (VStr (path_join control_root "crash")) /\
  set_directories a d !! "logDirectory"
    = Some (VStr (path_join control_root "log")) /\
  set_directories a d !! "outputDirectory"
    = Some (VStr (path_join a.(output_dir) "output")) /\
  forall k, k <> "crashLogDirectory" -> k <> "logDirectory" ->
            k <> "outputDirectory" -> set_directories a d !! k = d !! k.
Proof.
  unfold set_directories, output_is_local, control_root.
  destruct (contains "s3://" (lower a.(output_dir))); simpl;
    repeat split; try (intros k ? ? ?);
    by rewrite ?lookup_insert_eq, ?lookup_insert_ne, ?lookup_insert_eq by done.
Qed.

(** The stages of the merger, once it has returned. *)
Lemma override_merger_inv base tr d :
  override_merger a w base = (tr, inl d) ->
  exists d1 d2 d3,
    set_memory a (set_directories a base) = ([], inl d1) /\
    set_cores a d1 = ([], inl d2) /\
    set_credentials a w d2 = ([], inl d3) /\
    set_working_dir a (set_logging a d3) = (tr, inl d).
Proof.
  unfold override_merger. intros Hrun.
  apply bind_ret_inv in Hrun as (t1 & d1 & ? & Hm & Hrun & ->).
  apply bind_ret_inv in Hrun as (t2 & d2 & ? & Hc & Hrun & ->).
  apply bind_ret_inv in Hrun as (t3 & d3 & ? & Hk & Hrun & ->).
  destruct (set_memory_inv _ _ _ _ Hm) as [-> _].
  destruct (set_cores_inv _ _ _ _ Hc) as [-> _].
  destruct (set_credentials_inv _ _ _ _ _ Hk) as [-> _].
  by exists d1, d2, d3.
Qed.

Lemma configure_inv tr d :
  configure a w = (tr, inl d) ->
  exists base tr1 tr2,
    w.(yaml_load) (w.(realpath) a.(pipeline_file)) = inr (VDict base) /\
    override_merger a w base = (tr1, inl d) /\
    report a d = (tr2, inl tt) /\
    (forall e, e ∈ tr1 -> e ∈ tr).
Proof.
  unfold configure, load_pipeline_config, expect_mapping. intros Hrun.
  ok_inv. match goal with u : unit |- _ => destruct u end.
  eexists _, _, _. repeat split; try eassumption.
  intros e He. rewrite !elem_of_app. tauto.
Qed.

Lemma merged_memory base tr d :
  override_merger a w base = (tr, inl d) ->
  exists x, memory_resolution a x /\
            d !! "maximumMemoryPerParticipant" = Some (VFloat x).
Proof.
  intros (d1 & d2 & d3 & Hm & Hc & Hk & Hw)%override_merger_inv.
  apply set_memory_inv in Hm as (_ & x & Hx & ->).
  apply set_cores_inv in Hc as (_ & n & v & t & _ & _ & _ & ->).
  apply set_credentials_inv in Hk as [_ Hk].
  exists x. split; [done|].
  rewrite (set_working_dir_frame _ _ _ _ Hw), set_logging_frame, Hk by done.
  by rewrite !lookup_insert_ne, lookup_insert_eq by done.
Qed.

Lemma merged_cores base tr d :
  override_merger a w base = (tr, inl d) ->
  exists n v t,
    int_of_str a.(n_cpus) = Some n /\
    base !! "num_ants_threads" = Some v /\
    py_int v = ([], inl t) /\
    d !! "maxCoresPerParticipant" = Some (VInt n) /\
    d !! "num_ants_threads" = Some (VInt (Z.min n t)).
Proof.
  intros (d1 & d2 & d3 & Hm & Hc & Hk & Hw)%override_merger_inv.
  apply set_memory_inv in Hm as (_ & x & Hx & ->).
  apply set_cores_inv in Hc as (_ & n & v & t & Hn & Hv & Ht & ->).
  apply set_credentials_inv in Hk as [_ Hk].
  exists n, v, t. repeat split; try done.
  - rewrite lookup_insert_ne in Hv by done.
    by destruct (set_directories_lookup base) as (_ & _ & _ & <-).
  - rewrite (set_working_dir_frame _ _ _ _ Hw), set_logging_frame, Hk by done.
    by rewrite !lookup_insert_ne, lookup_insert_eq by done.
  - rewrite (set_working_dir_frame _ _ _ _ Hw), set_logging_frame, Hk by done.
    by rewrite lookup_insert_eq.
Qed.

Lemma merged_directories base tr d :
  override_merger a w base = (tr, inl d) ->
  d !! "crashLogDirectory" = Some (VStr (path_join control_root "crash")) /\
  d !! "logDirectory" = Some (VStr (path_join control_root "log")).
Proof.
  intros (d1 & d2 & d3 & Hm & Hc & Hk & Hw)%override_merger_inv.
  apply set_memory_inv in Hm as (_ & x & Hx & ->).
  apply set_cores_inv in Hc as (_ & n & v & t & _ & _ & _ & ->).
  apply set_credentials_inv in Hk as [_ Hk].
  destruct (set_directories_lookup base) as (Hcr & Hlg & _ & _).
  split.
  - rewrite (set_working_dir_frame _ _ _ _ Hw), set_logging_frame, Hk by done.
    by rewrite !lookup_insert_ne by done.
  - rewrite (set_working_dir_frame _ _ _ _ Hw), set_logging_frame, Hk by done.
    by rewrite !lookup_insert_ne by done.
Qed.

Lemma merged_logging base tr d :
  override_merger a w base = (tr, inl d) ->
  d !! "disable_log" = Some (VBool a.(disable_file_logging)).
Proof.
  intros (d1 & d2 & d3 & Hm & Hc & Hk & Hw)%override_merger_inv.
  rewrite (set_working_dir_frame _ _ _ _ Hw) by done.
  apply set_logging_flag.
Qed.

End Resolved.

(** ** Concrete runs *)

Module Scenario.

#[local] Existing Instance DecimalRuntime.float_type.
#[local] Existing Instance DecimalRuntime.runtime.

Definition pipeline_path : string := "/cpac_resources/default_pipeline.yaml".

(** A base pipeline document whose ANTs thread default is 8. *)
Definition base_config : gmap string pyval :=
  list_to_map
    [ ("num_ants_threads", VInt 8);
      ("workingDirectory", VStr "/tmp/work");
      ("removeWorkingDir", VBool false) ].

(** A machine with the given YAML files, directories and BIDS subjects;
    every collaborator answers without raising. *)
Definition world (files : list (string * pyval)) (dirs : list string)
    (subjects : list string) : World := {|
  version := "1.3.0";
  path_exists := fun p => bool_decide (p ∈ dirs);
  path_isfile := fun p => bool_decide (p ∈ files.*1);
  realpath := fun p => p;
  yaml_load := fun p =>
    match (list_to_map files : gmap string pyval) !! p with
    | Some doc => inr doc
    | None => inl (IOError p)
    end;
  open_w := fun _ => None;
  st := "20180521143000";
  bids_layout := fun _ => inr subjects;
  import_cpac := None;
  gui_run := None;
  import_nipype := None;
  engine_run := fun _ _ => None;
|}.

(** [run.py bids out level] with every option at its default. *)
Definition args (bids out : string) (lvl : level) : Args := {|
  bids_dir := bids;
  output_dir := out;
  analysis_level := lvl;
  pipeline_file := pipeline_path;
  data_config_file := None;
  aws_input_creds := None;
  aws_output_creds := None;
  n_cpus := "1";
  mem_mb := None;
  mem_gb := None;
  save_working_dir := false;
  disable_file_logging := false;
  participant_label := None;
  participant_ndx := None;
  bids_validator_config := None;
  skip_bids_validator := false;
|}.

Definition with_data_config (file : string) (x : Args) : Args := {|
  bids_dir := x.(bids_dir);
  output_dir := x.(output_dir);
  analysis_level := x.(analysis_level);
  pipeline_file := x.(pipeline_file);
  data_config_file := Some file;
  aws_input_creds := x.(aws_input_creds);
  aws_output_creds := x.(aws_output_creds);
  n_cpus := x.(n_cpus);
  mem_mb := x.(mem_mb);
  mem_gb := x.(mem_gb);
  save_working_dir := x.(save_working_dir);
  disable_file_logging := x.(disable_file_logging);
  participant_label := x.(participant_label);
  participant_ndx := x.(participant_ndx);
  bids_validator_config := x.(bids_validator_config);
  skip_bids_validator := x.(skip_bids_validator);
|}.

Definition with_resources (cpus : string) (mb gb : option string) (x : Args)
  : Args := {|
  bids_dir := x.(bids_dir);
  output_dir := x.(output_dir);
  analysis_level := x.(analysis_level);
  pipeline_file := x.(pipeline_file);
  data_config_file := x.(data_config_file);
  aws_input_creds := x.(aws_input_creds);
  aws_output_creds := x.(aws_output_creds);
  n_cpus := cpus;
  mem_mb := mb;
  mem_gb := gb;
  save_working_dir := x.(save_working_dir);
  disable_file_logging := x.(disable_file_logging);
  participant_label := x.(participant_label);
  participant_ndx := x.(participant_ndx);
  bids_validator_config := x.(bids_validator_config);
  skip_bids_validator := x.(skip_bids_validator);
|}.

Definition with_participants (labels : option (list string))
    (ndx : option string) (x : Args) : Args := {|
  bids_dir := x.(bids_dir);
  output_dir := x.(output_dir);
  analysis_level := x.(analysis_level);
  pipeline_file := x.(pipeline_file);
  data_config_file := x.(data_config_file);
  aws_input_creds := x.(aws_input_creds);
  aws_output_creds := x.(aws_output_creds);
  n_cpus := x.(n_cpus);
  mem_mb := x.(mem_mb);
  mem_gb := x.(mem_gb);
  save_working_dir := x.(save_working_dir);
  disable_file_logging := x.(disable_file_logging);
  participant_label := labels;
  participant_ndx := ndx;
  bids_validator_config := x.(bids_validator_config);
  skip_bids_validator := x.(skip_bids_validator);
|}.

Definition with_save_working_dir (x : Args) : Args := {|
  bids_dir := x.(bids_dir);
  output_dir := x.(output_dir);
  analysis_level := x.(analysis_level);
  pipeline_file := x.(pipeline_file);
  data_config_file := x.(data_config_file);
  aws_input_creds := x.(aws_input_creds);
  aws_output_creds := x.(aws_output_creds);
  n_cpus := x.(n_cpus);
  mem_mb := x.(mem_mb);
  mem_gb := x.(mem_gb);
  save_working_dir := true;
  disable_file_logging := x.(disable_file_logging);
  participant_label := x.(participant_label);
  participant_ndx := x.(participant_ndx);
  bids_validator_config := x.(bids_validator_config);
  skip_bids_validator := x.(skip_bids_validator);
|}.

(** A data configuration file with two subjects. *)
Definition two_subjects : pyval :=
  VDict (list_to_map [("subjectList", VList [VStr "sub-01"; VStr "sub-02"])]).

(** The machine of the scenarios: [/bids] holds subjects 01, 02 and 03,
    [/out] exists, [/data.yml] lists two subjects. *)
Definition machine : World :=
  world [(pipeline_path, VDict base_config); ("/data.yml", two_subjects)]
        ["/bids"; "/out"] ["01"; "02"; "03"].

(** [--n_cpus 4 --mem_mb 2048], a dry run on the data of [/data.yml] *)
Definition dry_run : Args :=
  with_resources "4" (Some "2048") None
    (with_data_config "/data.yml" (args "/bids" "/out" test_config)).

End Scenario.

(** ** The resolved pipeline configuration *)

Section PipelineConfig.
Context `{PyRuntime}.
Variable a : Args.
Variable w : World.

Lemma configure_events tr d e :
  configure a w = (tr, inl d) -> e ∈ tr -> e ∈ (run_script a w).1.
Proof.
  intros Hconf He. rewrite run_script_trace. unfold script, artifacts.
  apply elem_of_bind_l, elem_of_bind_l. by rewrite Hconf.
Qed.

(** The warning of lines 184-186. *)
Definition retention_warning : event :=
  Print ("Cannot write working directory to S3 bucket."
         ++ " Either change the output directory to something"
         ++ " local or turn off the --removeWorkingDir flag") [].

Lemma merged_retention_refused base tr d k :
  override_merger a w base = (tr, inl d) ->
  a.(save_working_dir) = true ->
  contains "s3://" (lower a.(output_dir)) = true ->
  k = "removeWorkingDir" \/ k = "workingDirectory" ->
  tr = [retention_warning] /\ d !! k = base !! k.
Proof.
  intros (d1 & d2 & d3 & Hm & Hc & Hk & Hw)%override_merger_inv Hsave Hs3 Hkey.
  apply set_memory_inv in Hm as (_ & x & Hx & ->).
  apply set_cores_inv in Hc as (_ & n & v & t & _ & _ & _ & ->).
  apply set_credentials_inv in Hk as [_ Hk].
  unfold set_working_dir, output_is_local in Hw. rewrite Hsave, Hs3 in Hw.
  simpl in Hw. injection Hw as <- <-. split; [done|].
  destruct (set_directories_lookup a base) as (_ & _ & _ & Hframe).
  destruct Hkey as [-> | ->].
  - rewrite set_logging_frame, Hk by done.
    rewrite !lookup_insert_ne by done. by apply Hframe.
  - rewrite set_logging_frame, Hk by done.
    rewrite !lookup_insert_ne by done. by apply Hframe.
Qed.

Lemma report_inv d tr u k :
  report a d = (tr, inl u) ->
  k = "removeWorkingDir" \/ k = "workingDirectory" ->
  is_Some (d !! k).
Proof.
  unfold report, print_item, dict_get. intros Hrun Hk.
  ok_inv; destruct Hk as [-> | ->]; eauto.
Qed.

End PipelineConfig.

(** A resolved pipeline configuration to test the claims on: the document
    that the dry run of [Scenario] writes. *)
Definition resolved_config `{PyRuntime} (a : Args) (w : World)
  : gmap string pyval :=
  match configure a w with
  | (_, inl d) => d
  | (_, inr _) => ∅
  end.

Lemma resolved_config_written `{PyRuntime} (a : Args) (w : World) tr d :
  configure a w = (tr, inl d) ->
  w.(open_w) (config_file a w) = None ->
  WriteYaml (config_file a w) (VDict (resolved_config a w)) ∈ (run_script a w).1.
Proof.
  intros Hconf Hopen. unfold resolved_config. rewrite Hconf.
  rewrite run_script_trace. unfold script, artifacts.
  apply elem_of_bind_l. eapply elem_of_bind_r; [exact Hconf|].
  apply elem_of_bind_l. unfold write_yaml. rewrite Hopen. simpl.
  apply list_elem_of_singleton. reflexivity.
Qed.

(** C4. The memory per participant in the pipeline configuration that a
    run writes: the value of [--mem_gb] when it is given (whatever
    [--mem_mb] is), else the value of [--mem_mb] divided by 1024.0 when
    that is given, else 6.0.  Lines 151-156 always resolve it when the
    option that counts reads as a float. *)
Theorem memory_per_participant `{PyRuntime} (a : Args) (w : World) :
  (forall doc, WriteYaml (config_file a w) doc ∈ (run_script a w).1 ->
     exists d x,
       doc = VDict d /\
       d !! "maximumMemoryPerParticipant" = Some (VFloat x) /\
       match arg_given a.(mem_gb), arg_given a.(mem_mb) with
       | Some gb, _ => float_of_str gb = Some x
       | None, Some mb =>
           exists y, float_of_str mb = Some y /\ x = float_div y float_1024
       | None, None => x = float_6
       end) /\
  (forall d x,
     match arg_given a.(mem_gb), arg_given a.(mem_mb) with
     | Some gb, _ => float_of_str gb = Some x
     | None, Some mb =>
         exists y, float_of_str mb = Some y /\ x = float_div y float_1024
     | None, None => x = float_6
     end ->
     set_memory a d
       = ([], inl (<["maximumMemoryPerParticipant" := VFloat x]> d))).
Proof.
  split.
  - intros doc (tr & d & Hconf & ->)%pipeline_write_inv.
    apply configure_inv in Hconf as (base & tr1 & tr2 & _ & Hmerge & _ & _).
    apply merged_memory in Hmerge as (x & Hx & Hd).
    exists d, x. by repeat split.
  - intros d x. unfold set_memory, float_arg.
    destruct (arg_given a.(mem_gb)) as [gb|]; [by intros ->|].
    destruct (arg_given a.(mem_mb)) as [mb|].
    + by intros (y & -> & ->).
    + by intros ->.
Qed.

Section MemoryRun.
#[local] Existing Instance DecimalRuntime.float_type.
#[local] Existing Instance DecimalRuntime.runtime.

(** C4, on the dry run with [--mem_mb 2048] and no [--mem_gb]: the
    resolved memory is 2048 / 1024.0 = 2.0. *)
Lemma memory_per_participant_witness :
  exists d,
    VDict (resolved_config Scenario.dry_run Scenario.machine) = VDict d /\
    d !! "maximumMemoryPerParticipant"
      = Some (@VFloat DecimalRuntime.float_type (Qmake 2 1)).
Proof.
  destruct (memory_per_participant Scenario.dry_run Scenario.machine)
    as [Hrun _].
  destruct (configure Scenario.dry_run Scenario.machine)
    as [tr [d0|o]] eqn:Hconf.
  - destruct (Hrun (VDict (resolved_config Scenario.dry_run Scenario.machine)))
      as (d & x & Hd & Hx & y & Hy & Hxy).
    + eapply resolved_config_written; [exact Hconf | reflexivity].
    + exists d. split; [done|]. rewrite Hx, Hxy.
      vm_compute in Hy. injection Hy as <-. reflexivity.
  - apply returns_stop in Hconf. vm_compute in Hconf. discriminate Hconf.
Defined.

End MemoryRun.

(** C5. In the pipeline configuration that a run writes, the core count
    is the requested [n_cpus] and the ANTs thread count is the smaller of
    [n_cpus] and the thread count of the base document; it never exceeds
    [n_cpus], and it is 4 for [n_cpus = 4] and a base value of 8.  Lines
    158-160 always resolve both when [n_cpus] and the base value read as
    integers. *)
Theorem ants_thread_cap `{PyRuntime} (a : Args) (w : World) :
  (forall doc, WriteYaml (config_file a w) doc ∈ (run_script a w).1 ->
     exists d base n v t,
       doc = VDict d /\
       w.(yaml_load) (w.(realpath) a.(pipeline_file)) = inr (VDict base) /\
       int_of_str a.(n_cpus) = Some n /\
       base !! "num_ants_threads" = Some v /\
       py_int v = ([], inl t) /\
       d !! "maxCoresPerParticipant" = Some (VInt n) /\
       d !! "num_ants_threads" = Some (VInt (Z.min n t)) /\
       Z.min n t <= n /\
       (n = 4 -> t = 8 -> d !! "num_ants_threads" = Some (VInt 4))) /\
  (forall d n v t,
     int_of_str a.(n_cpus) = Some n ->
     d !! "num_ants_threads" = Some v ->
     py_int v = ([], inl t) ->
     set_cores a d
       = ([], inl (<["num_ants_threads" := VInt (Z.min n t)]>
                     (<["numParticipantsAtOnce" := VInt 1]>
                        (<["maxCoresPerParticipant" := VInt n]> d))))).
Proof.
  split.
  - intros doc (tr & d & Hconf & ->)%pipeline_write_inv.
    apply configure_inv in Hconf as (base & tr1 & tr2 & Hload & Hmerge & _ & _).
    apply merged_cores in Hmerge as (n & v & t & Hn & Hv & Ht & Hcores & Hants).
    exists d, base, n, v, t. repeat split; try done.
    + lia.
    + by intros -> ->.
  - intros d n v t Hn Hv Ht. unfold set_cores, int_arg, dict_get.
    rewrite Hn. simpl. rewrite !lookup_insert_ne, Hv by done. simpl.
    by rewrite Ht.
Qed.

Section ThreadsRun.
#[local] Existing Instance DecimalRuntime.float_type.
#[local] Existing Instance DecimalRuntime.runtime.

(** C5, on the dry run with [--n_cpus 4] over a base document that asks
    for 8 ANTs threads: 4 cores, 4 ANTs threads. *)
Lemma ants_thread_cap_witness :
  exists d,
    VDict (resolved_config Scenario.dry_run Scenario.machine) = VDict d /\
    d !! "maxCoresPerParticipant" = Some (VInt 4) /\
    d !! "num_ants_threads" = Some (VInt 4).
Proof.
  destruct (ants_thread_cap Scenario.dry_run Scenario.machine) as [Hrun _].
  destruct (configure Scenario.dry_run Scenario.machine)
    as [tr [d0|o]] eqn:Hconf.
  - destruct (Hrun (VDict (resolved_config Scenario.dry_run Scenario.machine)))
      as (d & base & n & v & t & Hd & Hload & Hn & Hv & Ht & Hcores & _ & _ & Hfour).
    + eapply resolved_config_written; [exact Hconf | reflexivity].
    + exists d. vm_compute in Hn. injection Hn as <-.
      injection Hload as <-.
      vm_compute in Hv. injection Hv as <-.
      injection Ht as <-.
      split; [done|]. split; [done|]. by apply Hfour.
  - apply returns_stop in Hconf. vm_compute in Hconf. discriminate Hconf.
Defined.

End ThreadsRun.

(** ** Working directory retention against a remote destination *)

(** [--save_working_dir] with an S3 output directory, a dry run on the
    data of [/data.yml]. *)
Definition retained_on_s3 : Args :=
  Scenario.with_save_working_dir
    (Scenario.with_data_config "/data.yml"
       (Scenario.args "/bids" "s3://bucket/out" test_config)).

(** The reading of the retention rule under which a refused retention
    falls through to the defaults of the branch without retention. *)
Definition retention_falls_through `{PyRuntime} (a : Args) (w : World) : Prop :=
  a.(save_working_dir) = true ->
  contains "s3://" (lower a.(output_dir)) = true ->
  forall doc, WriteYaml (config_file a w) doc ∈ (run_script a w).1 ->
    exists d,
      doc = VDict d /\
      d !! "removeWorkingDir" = Some (VBool true) /\
      d !! "workingDirectory" = Some (VStr (path_join "/scratch" "working")) /\
      is_Some (d !! "disable_log").

Section RetentionRun.
#[local] Existing Instance DecimalRuntime.float_type.
#[local] Existing Instance DecimalRuntime.runtime.

(** C2, as stated, fails: with a base document that says
    [removeWorkingDir: false] and [workingDirectory: /tmp/work], the run
    with [--save_working_dir] and an S3 destination writes a pipeline
    configuration that still says so. *)
Lemma retention_falls_through_counterexample :
  ~ retention_falls_through retained_on_s3 Scenario.machine.
Proof.
  intros Hclaim.
  destruct (configure retained_on_s3 Scenario.machine) as [tr [d0|o]] eqn:Hconf.
  - destruct (Hclaim eq_refl eq_refl
                (VDict (resolved_config retained_on_s3 Scenario.machine)))
      as (d & Hd & Hremove & _).
    + eapply resolved_config_written; [exact Hconf | reflexivity].
    + injection Hd as <-. vm_compute in Hremove. discriminate Hremove.
  - apply returns_stop in Hconf. vm_compute in Hconf. discriminate Hconf.
Qed.

End RetentionRun.

(** C2, amended. When [--save_working_dir] is given and the output
    directory is remote, the warning is printed and the merger writes
    neither [removeWorkingDir] nor [workingDirectory]: the pipeline
    configuration that the run writes has both as the base document has
    them (and it has them), and [disable_log] is the flag of the command
    line. *)
Theorem retention_refused_keeps_base `{PyRuntime} (a : Args) (w : World)
    (doc : pyval) :
  a.(save_working_dir) = true ->
  contains "s3://" (lower a.(output_dir)) = true ->
  WriteYaml (config_file a w) doc ∈ (run_script a w).1 ->
  exists d base,
    doc = VDict d /\
    w.(yaml_load) (w.(realpath) a.(pipeline_file)) = inr (VDict base) /\
    retention_warning ∈ (run_script a w).1 /\
    d !! "removeWorkingDir" = base !! "removeWorkingDir" /\
    d !! "workingDirectory" = base !! "workingDirectory" /\
    is_Some (d !! "removeWorkingDir") /\
    is_Some (d !! "workingDirectory") /\
    d !! "disable_log" = Some (VBool a.(disable_file_logging)).
Proof.
  intros Hsave Hs3 (tr & d & Hconf & ->)%pipeline_write_inv.
  destruct (configure_inv _ _ _ _ Hconf)
    as (base & tr1 & tr2 & Hload & Hmerge & Hreport & Hsub).
  destruct (merged_retention_refused _ _ _ _ _ "removeWorkingDir"
              Hmerge Hsave Hs3) as [-> Hremove]; [by left|].
  destruct (merged_retention_refused _ _ _ _ _ "workingDirectory"
              Hmerge Hsave Hs3) as [_ Hworking]; [by right|].
  exists d, base. repeat split; try done.
  - eapply configure_events; [exact Hconf|]. apply Hsub. by left.
  - eapply report_inv; [exact Hreport | by left].
  - eapply report_inv; [exact Hreport | by right].
  - by eapply merged_logging.
Qed.

Section RetentionKept.
#[local] Existing Instance DecimalRuntime.float_type.
#[local] Existing Instance DecimalRuntime.runtime.

(** C2 amended, on the run of the counterexample: the written document
    keeps [removeWorkingDir: false] and [workingDirectory: /tmp/work]. *)
Lemma retention_refused_keeps_base_witness :
  exists d,
    VDict (resolved_config retained_on_s3 Scenario.machine) = VDict d /\
    retention_warning ∈ (run_script retained_on_s3 Scenario.machine).1 /\
    d !! "removeWorkingDir" = Some (VBool false) /\
    d !! "workingDirectory" = Some (VStr "/tmp/work") /\
    d !! "disable_log" = Some (VBool false).
Proof.
  destruct (configure retained_on_s3 Scenario.machine) as [tr [d0|o]] eqn:Hconf.
  - destruct (retention_refused_keeps_base retained_on_s3 Scenario.machine
                (VDict (resolved_config retained_on_s3 Scenario.machine)))
      as (d & base & Hd & Hload & Hwarn & Hremove & Hworking & _ & _ & Hlog).
    + reflexivity.
    + reflexivity.
    + eapply resolved_config_written; [exact Hconf | reflexivity].
    + exists d. injection Hload as <-.
      repeat split; try done.
  - apply returns_stop in Hconf. vm_compute in Hconf. discriminate Hconf.
Defined.

End RetentionKept.

(** ** The manifest stage *)

(** Observations on a trace. *)
Definition printed `{PyFloat} (fmt : string) (tr : list event) : bool :=
  existsb (fun e => match e with
                    | Print f _ => String.eqb f fmt
                    | _ => false
                    end) tr.

Definition written `{PyFloat} (tr : list event) : list string :=
  omap (fun e => match e with
                 | WriteYaml p _ => Some p
                 | _ => None
                 end) tr.

Definition engine_started `{PyFloat} (tr : list event) : bool :=
  existsb is_engine tr.

Lemma written_quiet `{PyFloat} (tr : list event) :
  Forall quiet tr -> written tr = [].
Proof.
  induction 1 as [|e tr [He _] _ IH]; [done|].
  destruct e; try exact IH. discriminate He.
Qed.

Section Manifest.
Context `{PyRuntime}.
Variable a : Args.
Variable w : World.

(** The first name of lines 235-238 is bound neither in the module nor
    among the builtins (nor are the other three). *)
Lemma dataFormat_unbound d :
  module_namespace a w d !! "dataFormat" = None /\
  builtin_value "dataFormat" = None.
Proof. split; reflexivity. Qed.

Lemma dict_display_unbound (ns : gmap string pyval) x v items acc :
  ns !! x = None /\ builtin_value x = None ->
  dict_display ns ((x, v) :: items) acc = ([], inr (Raised (NameError x))).
Proof.
  intros [Hx Hb]. cbn [dict_display]. unfold load_name. by rewrite Hx, Hb.
Qed.

(** Once the layout is built, line 234 raises NameError: the scan path
    goes no further. *)
Lemma scan_manifest_raises d subjects :
  w.(bids_layout) a.(bids_dir) = inr subjects ->
  scan_manifest a w d = ([], inr (Raised (NameError "dataFormat"))).
Proof.
  intros Hlayout. unfold scan_manifest. rewrite Hlayout.
  rewrite dict_display_unbound by apply dataFormat_unbound. reflexivity.
Qed.

Lemma scan_manifest_stops d tr dc : scan_manifest a w d <> (tr, inl dc).
Proof.
  destruct (w.(bids_layout) a.(bids_dir)) as [e|subjects] eqn:Hlayout.
  - unfold scan_manifest. by rewrite Hlayout.
  - by rewrite (scan_manifest_raises _ _ Hlayout).
Qed.

(** With labels, line 247 calls a method that [set] does not have. *)
Lemma select_subjects_raises labels subjects_bids :
  labels_given a.(participant_label) = Some labels ->
  select_subjects a subjects_bids
    = ([], inr (Raised (AttributeError "set" "intersect"))).
Proof. intros Hl. unfold select_subjects. by rewrite Hl. Qed.

(** Line 291 subscripts the list with the string of the command line:
    an index that passes the range test raises TypeError. *)
Lemma index_selection_in_range_raises m l ndx i :
  arg_given a.(participant_ndx) = Some ndx ->
  int_of_str ndx = Some i ->
  m !! "subjectList" = Some (VList l) ->
  0 <= i < Z.of_nat (length l) ->
  index_selection a w (VDict m)
    = ([], inr (Raised (TypeError "list indices must be integers, not str"))).
Proof.
  intros Hndx Hi Hl [Hlo Hhi]. unfold index_selection. rewrite Hndx.
  unfold int_arg. rewrite Hi. simpl. unfold dict_get. rewrite Hl. simpl.
  apply Z.leb_le in Hlo as ->. apply Z.ltb_lt in Hhi as ->. done.
Qed.

(** An index outside the range prints the range and exits with 1. *)
Lemma index_selection_out_of_range dc l ndx i k trl trk :
  arg_given a.(participant_ndx) = Some ndx ->
  int_of_str ndx = Some i ->
  subscript dc "subjectList" = (trl, inl l) ->
  py_len l = (trk, inl k) ->
  ~ (0 <= i < k) ->
  index_selection a w dc
    = ([Print "Participant ndx {0} is out of bounds [0,{1})" [VInt i; VInt k]],
       inr (Exit 1)).
Proof.
  intros Hndx Hi Hl Hk Hout. unfold index_selection. rewrite Hndx.
  unfold int_arg. rewrite Hi. simpl.
  assert (trl = []) as ->.
  { unfold subscript, dict_get in Hl. by ok_inv. }
  assert (trk = []) as ->.
  { unfold py_len in Hk. by ok_inv. }
  rewrite Hl. simpl. rewrite Hk. simpl.
  destruct (0 <=? i)%Z eqn:Hlo; simpl.
  - destruct (i <? k)%Z eqn:Hhi; simpl; [|done].
    apply Z.leb_le in Hlo. apply Z.ltb_lt in Hhi. lia.
  - done.
Qed.

End Manifest.

(** ** Runs that the scan path and the index selection end early *)

(** [--participant_label 02 04] on a BIDS directory with subjects 01, 02
    and 03, no data configuration file. *)
Definition labelled_scan : Args :=
  Scenario.with_participants (Some ["02"; "04"]) None
    (Scenario.args "/bids" "/out" participant).

Section EarlyEnds.
#[local] Existing Instance DecimalRuntime.float_type.
#[local] Existing Instance DecimalRuntime.runtime.

(** C1. On the scenario of the claim the run does not get to a subject
    list: it writes the pipeline configuration and then ends with the
    NameError of line 234, and has printed no message about missing
    labels; the filter of lines 245-252, taken alone on the discovered
    set, ends with the AttributeError of line 247. *)
Theorem labelled_scan_raises :
  (run_script labelled_scan Scenario.machine).2
    = Raised (NameError "dataFormat") /\
  written (run_script labelled_scan Scenario.machine).1
    = ["/out/cpac_pipeline_config_20180521143000.yml"] /\
  printed "participant_label has subjects not in the bids directory: {}"
    (run_script labelled_scan Scenario.machine).1 = false /\
  select_subjects labelled_scan
      (list_to_set ["01"; "02"; "03"])
    = ([], inr (Raised (AttributeError "set" "intersect"))).
Proof. repeat split; vm_compute; reflexivity. Qed.

(** A BIDS directory without subjects. *)
Definition empty_machine : World :=
  Scenario.world
    [(Scenario.pipeline_path, VDict Scenario.base_config)]
    ["/bids"; "/out"] [].

(** C6. On a BIDS directory without subjects the run ends with the
    NameError of line 234: the message of line 265 is not printed and
    line 266 is not reached.  The pipeline configuration is the only file
    written and the engine is not started. *)
Theorem empty_scan_raises :
  (run_script (Scenario.args "/bids" "/out" participant) empty_machine).2
    = Raised (NameError "dataFormat") /\
  printed "Did not find any files to process"
    (run_script (Scenario.args "/bids" "/out" participant) empty_machine).1
    = false /\
  written (run_script (Scenario.args "/bids" "/out" participant) empty_machine).1
    = ["/out/cpac_pipeline_config_20180521143000.yml"] /\
  engine_started
    (run_script (Scenario.args "/bids" "/out" participant) empty_machine).1
    = false.
Proof. repeat split; vm_compute; reflexivity. Qed.

(** [--participant_ndx 0] on the two subjects of [/data.yml]. *)
Definition first_of_two : Args :=
  Scenario.with_participants None (Some "0")
    (Scenario.with_data_config "/data.yml"
       (Scenario.args "/bids" "/out" participant)).

(** [--participant_ndx 2] on the same file. *)
Definition third_of_two : Args :=
  Scenario.with_participants None (Some "2")
    (Scenario.with_data_config "/data.yml"
       (Scenario.args "/bids" "/out" participant)).

(** C3. Index 0 into a list of two subjects passes the range test and
    then ends the run with the TypeError of line 291: no data
    configuration is written, under any name, and the engine is not
    started.  Index 2 is rejected as the claim says: the range is
    printed, the exit status is 1, no data configuration is written. *)
Theorem index_in_range_raises :
  (run_script first_of_two Scenario.machine).2
    = Raised (TypeError "list indices must be integers, not str") /\
  written (run_script first_of_two Scenario.machine).1
    = ["/out/cpac_pipeline_config_20180521143000.yml"] /\
  engine_started (run_script first_of_two Scenario.machine).1 = false /\
  (run_script third_of_two Scenario.machine).2 = Exit 1 /\
  printed "Participant ndx {0} is out of bounds [0,{1})"
    (run_script third_of_two Scenario.machine).1 = true /\
  written (run_script third_of_two Scenario.machine).1
    = ["/out/cpac_pipeline_config_20180521143000.yml"].
Proof. repeat split; vm_compute; reflexivity. Qed.

End EarlyEnds.

(** ** Runs that reach the dispatcher *)

Section Dispatch.
Context `{PyRuntime}.
Variable a : Args.
Variable w : World.

Lemma manifest_inv d tr dcf :
  manifest a w d = (tr, inl dcf) ->
  exists dc0 dc name tr1 tr2,
    resolve_manifest a w d = (tr1, inl dc0) /\
    index_selection a w dc0 = (tr2, inl (dc, name)) /\
    dcf = artifact_path a name /\
    w.(open_w) dcf = None /\
    tr = (tr1 ++ tr2 ++ [WriteYaml dcf dc])%list.
Proof.
  unfold manifest. intros Hrun.
  apply bind_ret_inv in Hrun as (tr1 & dc0 & ? & Hres & Hrun & ->).
  apply bind_ret_inv in Hrun as (tr2 & [dc name] & ? & Hsel & Hrun & ->).
  unfold write_yaml in Hrun. ok_inv.
  exists dc0, dc, name, tr1, tr2. repeat split; try done.
  all: by rewrite app_nil_r.
Qed.

Lemma group_branch_inv tr u :
  group_branch a w = (tr, inl u) -> a.(analysis_level) <> group /\ tr = [].
Proof.
  unfold group_branch. intros Hrun.
  destruct a.(analysis_level); simpl in Hrun; ok_inv; done.
Qed.

Lemma artifacts_inv tr d dcf :
  artifacts a w = (tr, inl (d, dcf)) ->
  exists tr1 tr2,
    configure a w = (tr1, inl d) /\
    w.(open_w) (config_file a w) = None /\
    a.(analysis_level) <> group /\
    manifest a w d = (tr2, inl dcf) /\
    tr = (tr1 ++ WriteYaml (config_file a w) (VDict d) :: tr2)%list.
Proof.
  unfold artifacts. intros Hrun.
  apply bind_ret_inv in Hrun as (tr1 & d' & ? & Hconf & Hrun & ->).
  apply bind_ret_inv in Hrun as (? & ? & ? & Hwrite & Hrun & ->).
  apply bind_ret_inv in Hrun as (? & ? & ? & Hgroup & Hrun & ->).
  apply bind_ret_inv in Hrun as (tr2 & dcf' & ? & Hman & Hrun & ->).
  injection Hrun as <- <- <-.
  apply group_branch_inv in Hgroup as [Hgroup ->].
  unfold write_yaml in Hwrite. ok_inv.
  exists tr1, tr2. repeat split; try done.
  all: by rewrite app_nil_r.
Qed.

Lemma artifacts_no_engine :
  Forall (fun e => is_engine e = false) (artifacts a w).1.
Proof.
  unfold artifacts. apply bind_trace.
  { eapply Forall_impl; [apply configure_quiet | by intros e [_ He]]. }
  intros _ d _. apply bind_trace.
  { unfold write_yaml. repeat trace_step. }
  intros _ _ _. apply bind_trace.
  { eapply Forall_impl; [apply group_branch_quiet | by intros e [_ He]]. }
  intros _ _ _. apply bind_trace; [|intros; constructor].
  eapply Forall_impl; [apply manifest_trace | by intros e [He _]].
Qed.

(** The message of lines 322-324. *)
Definition test_run_message : string :=
  "This has been a test run, the pipeline and data configuration files should"
  ++ " have been written to {0} and {1} respectively."
  ++ " CPAC will not be run.".

Lemma dispatch_test_config d dcf :
  a.(analysis_level) = test_config ->
  dispatch a w d dcf
    = ([Print test_run_message [VStr (config_file a w); VStr dcf]],
       inr (Exit 0)).
Proof. intros Hl. unfold dispatch. by rewrite Hl. Qed.

Lemma run_script_dispatch tr r :
  artifacts a w = (tr, inl r) ->
  run_script a w
    = ((tr ++ (dispatch a w r.1 r.2).1)%list,
       match (dispatch a w r.1 r.2).2 with
       | inr o => o
       | inl _ => Exit 0
       end).
Proof.
  intros Hart. unfold run_script, script. rewrite (bind_run _ _ _ _ Hart).
  by destruct (dispatch a w r.1 r.2) as [tr2 [[]|o]].
Qed.

Lemma run_script_stop tr o :
  artifacts a w = (tr, inr o) -> run_script a w = (tr, o).
Proof.
  intros Hart. unfold run_script, script. by rewrite (bind_stop _ _ _ _ Hart).
Qed.

End Dispatch.

(** C7. A run with [analysis_level = test_config] that reaches the
    dispatcher has written the pipeline configuration and a data
    configuration, both in the artifact directory under names that carry
    the timestamp [st] of the run; it then prints where they are and exits
    with status 0, and no event of the run starts the engine. *)
Theorem dry_run_persists_both `{PyRuntime} (a : Args) (w : World)
    (tr : list event) (d : gmap string pyval) (dcf : string) :
  a.(analysis_level) = test_config ->
  artifacts a w = (tr, inl (d, dcf)) ->
  run_script a w
    = ((tr ++ [Print test_run_message [VStr (config_file a w); VStr dcf]])%list,
       Exit 0) /\
  WriteYaml (config_file a w) (VDict d) ∈ tr /\
  config_file a w = artifact_path a ("cpac_pipeline_config_" ++ w.(st) ++ ".yml") /\
  (exists name doc,
      WriteYaml dcf doc ∈ tr /\
      dcf = artifact_path a name /\
      (name = "cpac_data_config_" ++ w.(st) ++ ".yml" \/
       exists ndx, name = "cpac_data_config_pt" ++ ndx ++ "_" ++ w.(st) ++ ".yml")) /\
  engine_started (run_script a w).1 = false.
Proof.
  intros Hlevel Hart.
  pose proof (run_script_dispatch _ _ _ _ Hart) as Hrun.
  rewrite dispatch_test_config in Hrun by done. simpl in Hrun.
  split; [done|].
  pose proof (artifacts_no_engine a w) as Hquiet. rewrite Hart in Hquiet.
  destruct (artifacts_inv _ _ _ _ _ Hart)
    as (tr1 & tr2 & Hconf & Hopen & _ & Hman & ->).
  destruct (manifest_inv _ _ _ _ _ Hman)
    as (dc0 & dc & name & tr3 & tr4 & _ & Hsel & -> & _ & ->).
  repeat split.
  - rewrite elem_of_app, elem_of_cons. tauto.
  - exists name, dc. repeat split.
    + rewrite elem_of_app, elem_of_cons, !elem_of_app, list_elem_of_singleton. tauto.
    + by apply index_selection_name in Hsel.
  - rewrite Hrun. simpl. unfold engine_started.
    rewrite existsb_app. simpl. rewrite orb_false_r.
    apply not_true_is_false. intros (e & Hin & He)%existsb_exists.
    simpl in Hquiet. rewrite Forall_forall in Hquiet.
    apply list_elem_of_In, Hquiet in Hin. congruence.
Qed.

Section DryRun.
#[local] Existing Instance DecimalRuntime.float_type.
#[local] Existing Instance DecimalRuntime.runtime.

(** C7, on the dry run of [Scenario]: both files are written under /out
    with the timestamp of the run. *)
Lemma dry_run_persists_both_witness :
  (run_script Scenario.dry_run Scenario.machine).2 = Exit 0 /\
  written (run_script Scenario.dry_run Scenario.machine).1
    = ["/out/cpac_pipeline_config_20180521143000.yml";
       "/out/cpac_data_config_20180521143000.yml"] /\
  engine_started (run_script Scenario.dry_run Scenario.machine).1 = false.
Proof.
  destruct (artifacts Scenario.dry_run Scenario.machine)
    as [tr [[d dcf]|o]] eqn:Hart.
  - destruct (dry_run_persists_both Scenario.dry_run Scenario.machine
                tr d dcf eq_refl Hart) as (Hrun & _ & _ & _ & Hengine).
    split; [by rewrite Hrun|].
    split; [vm_compute; reflexivity | exact Hengine].
  - apply returns_stop in Hart. vm_compute in Hart. discriminate Hart.
Defined.

End DryRun.

(** ** The scan path *)

(** A run is on the scan path and has come to the data configuration of
    line 234: no data configuration file is given, everything up to the
    pipeline configuration artifact has gone through, the level is not
    [group], and the layout of the BIDS directory has been built. *)
Definition reaches_scan `{PyRuntime} (a : Args) (w : World)
    (tr : list event) (d : gmap string pyval) : Prop :=
  arg_given a.(data_config_file) = None /\
  configure a w = (tr, inl d) /\
  w.(open_w) (config_file a w) = None /\
  a.(analysis_level) <> group /\
  exists subjects, w.(bids_layout) a.(bids_dir) = inr subjects.

(** The reading of C9 under which nothing at all has been written when
    the NameError is raised. *)
Definition name_error_before_any_write `{PyRuntime} (a : Args) (w : World)
  : Prop :=
  forall tr d, reaches_scan a w tr d ->
    (run_script a w).2 = Raised (NameError "dataFormat") /\
    written (run_script a w).1 = [].

Section ScanWrites.
#[local] Existing Instance DecimalRuntime.float_type.
#[local] Existing Instance DecimalRuntime.runtime.

(** C9, as stated, fails on "before any artifact writing": the scan of
    [/bids] ends with the NameError, and the pipeline configuration has
    been written by then. *)
Lemma name_error_before_any_write_counterexample :
  ~ name_error_before_any_write
      (Scenario.args "/bids" "/out" participant) Scenario.machine.
Proof.
  intros Hclaim.
  destruct (configure (Scenario.args "/bids" "/out" participant) Scenario.machine)
    as [tr [d|o]] eqn:Hconf.
  - destruct (Hclaim tr d) as [_ Hwritten].
    + repeat split; try done. by eexists.
    + vm_compute in Hwritten. discriminate Hwritten.
  - apply returns_stop in Hconf. vm_compute in Hconf. discriminate Hconf.
Qed.

End ScanWrites.

Lemma manifest_scan_stops `{PyRuntime} (a : Args) (w : World) d tr dcf :
  arg_given a.(data_config_file) = None ->
  manifest a w d <> (tr, inl dcf).
Proof.
  intros Hscan Hman.
  apply manifest_inv in Hman as (dc0 & _ & _ & tr1 & _ & Hres & _).
  unfold resolve_manifest in Hres. rewrite Hscan in Hres.
  by apply scan_manifest_stops in Hres.
Qed.

Lemma reaches_scan_run `{PyRuntime} (a : Args) (w : World) tr d :
  reaches_scan a w tr d ->
  run_script a w
    = ((tr ++ [WriteYaml (config_file a w) (VDict d)])%list,
       Raised (NameError "dataFormat")).
Proof.
  intros (Hscan & Hconf & Hopen & Hgroup & subjects & Hlayout).
  apply run_script_stop. unfold artifacts.
  rewrite (bind_run _ _ _ _ Hconf). simpl.
  unfold write_yaml. rewrite Hopen. simpl.
  unfold group_branch.
  assert (manifest a w d = ([], inr (Raised (NameError "dataFormat")))) as Hman.
  { unfold manifest, resolve_manifest. rewrite Hscan.
    by rewrite (scan_manifest_raises _ _ _ _ Hlayout). }
  destruct a.(analysis_level); try done; simpl; by rewrite Hman.
Qed.

Lemma scan_never_dispatches `{PyRuntime} (a : Args) (w : World) tr r :
  arg_given a.(data_config_file) = None -> artifacts a w <> (tr, inl r).
Proof.
  intros Hscan Hart. destruct r as [d dcf].
  apply artifacts_inv in Hart as (tr1 & tr2 & _ & _ & _ & Hman & _).
  by apply manifest_scan_stops in Hman.
Qed.

Lemma no_engine_started `{PyFloat} (tr : list event) :
  Forall (fun e => is_engine e = false) tr -> engine_started tr = false.
Proof.
  intros Hquiet. unfold engine_started. apply not_true_is_false.
  intros (e & Hin & He)%existsb_exists.
  rewrite Forall_forall in Hquiet.
  apply list_elem_of_In, Hquiet in Hin. congruence.
Qed.

(** C9, amended. On the scan path, a run that has come to line 234 ends
    there with NameError for [dataFormat]: its events are those of the
    configuration stage and the write of the pipeline configuration,
    nothing after it (no subject filtering, no data configuration, no
    engine).  No run on the scan path gets to the dispatcher, and none
    starts the engine. *)
Theorem scan_path_name_error `{PyRuntime} (a : Args) (w : World) :
  arg_given a.(data_config_file) = None ->
  (forall tr d, reaches_scan a w tr d ->
     run_script a w
       = ((tr ++ [WriteYaml (config_file a w) (VDict d)])%list,
          Raised (NameError "dataFormat"))) /\
  (forall tr r, artifacts a w <> (tr, inl r)) /\
  engine_started (run_script a w).1 = false.
Proof.
  intros Hscan. repeat split.
  - apply reaches_scan_run.
  - intros tr r. by apply scan_never_dispatches.
  - destruct (artifacts a w) as [tr [r|o]] eqn:Hart.
    + by destruct (scan_never_dispatches a w tr r).
    + rewrite (run_script_stop _ _ _ _ Hart). simpl.
      apply no_engine_started.
      pose proof (artifacts_no_engine a w) as Hquiet. by rewrite Hart in Hquiet.
Qed.

Section ScanRun.
#[local] Existing Instance DecimalRuntime.float_type.
#[local] Existing Instance DecimalRuntime.runtime.

(** C9 amended, on the scan of [/bids]: NameError, with the pipeline
    configuration as the only file written. *)
Lemma scan_path_name_error_witness :
  (run_script (Scenario.args "/bids" "/out" participant) Scenario.machine).2
    = Raised (NameError "dataFormat") /\
  written (run_script (Scenario.args "/bids" "/out" participant) Scenario.machine).1
    = ["/out/cpac_pipeline_config_20180521143000.yml"].
Proof.
  destruct (scan_path_name_error
              (Scenario.args "/bids" "/out" participant) Scenario.machine)
    as (Hrun & _ & _); [reflexivity|].
  destruct (configure (Scenario.args "/bids" "/out" participant) Scenario.machine)
    as [tr [d|o]] eqn:Hconf.
  - split; [|vm_compute; reflexivity].
    rewrite (Hrun tr d); [reflexivity|].
    repeat split; try done. by eexists.
  - apply returns_stop in Hconf. vm_compute in Hconf. discriminate Hconf.
Defined.

End ScanRun.

(** ** Exit statuses *)

Section ExitStatus.
Context `{PyRuntime}.
Variable a : Args.
Variable w : World.

Lemma gui_returns_run :
  a.(analysis_level) = GUI ->
  w.(import_cpac) = None ->
  w.(gui_run) = None ->
  run_script a w = ([PrintArgs; Print "Starting CPAC GUI" []; GuiRun], Exit 1).
Proof.
  intros Hlevel Himport Hgui. apply run_script_stop.
  unfold artifacts, configure, gui_branch.
  by rewrite Hlevel, Himport, Hgui.
Qed.

(** A directory that is not given as an S3 URL and does not exist. *)
Definition missing (dir : string) : Prop :=
  startswith "s3://" (lower dir) = false /\ w.(path_exists) dir = false.

Lemma missing_directory_run :
  a.(analysis_level) <> GUI ->
  missing a.(bids_dir) \/ missing a.(output_dir) ->
  exists dir,
    run_script a w
      = ([PrintArgs; Print "Error! Could not find {0}" [VStr dir]], Exit 0).
Proof.
  intros Hlevel Hmissing.
  assert (gui_branch a w = ([], inl tt)) as Hgui.
  { unfold gui_branch. by destruct a.(analysis_level). }
  destruct (negb (startswith "s3://" (lower a.(bids_dir)))
            && negb (w.(path_exists) a.(bids_dir))) eqn:Hbids.
  - exists a.(bids_dir). apply run_script_stop.
    unfold artifacts, configure, check_directories.
    by rewrite Hgui, Hbids.
  - destruct Hmissing as [[Hs3 Hex] | [Hs3 Hex]].
    { by rewrite Hs3, Hex in Hbids. }
    exists a.(output_dir). apply run_script_stop.
    unfold artifacts, configure, check_directories.
    by rewrite Hgui, Hbids, Hs3, Hex.
Qed.

Lemma group_run tr d :
  a.(analysis_level) = group ->
  configure a w = (tr, inl d) ->
  w.(open_w) (config_file a w) = None ->
  (run_script a w).2 = Exit 0.
Proof.
  intros Hlevel Hconf Hopen.
  erewrite run_script_stop; [reflexivity|].
  unfold artifacts. rewrite (bind_run _ _ _ _ Hconf). simpl.
  unfold write_yaml. rewrite Hopen. simpl.
  unfold group_branch. by rewrite Hlevel.
Qed.

Lemma out_of_range_run tr d tr0 dc ndx i l k trl trk :
  configure a w = (tr, inl d) ->
  w.(open_w) (config_file a w) = None ->
  a.(analysis_level) <> group ->
  resolve_manifest a w d = (tr0, inl dc) ->
  arg_given a.(participant_ndx) = Some ndx ->
  int_of_str ndx = Some i ->
  subscript dc "subjectList" = (trl, inl l) ->
  py_len l = (trk, inl k) ->
  ~ (0 <= i < k) ->
  (run_script a w).2 = Exit 1 /\
  printed "Participant ndx {0} is out of bounds [0,{1})" (run_script a w).1 = true /\
  written (run_script a w).1 = [config_file a w].
Proof.
  intros Hconf Hopen Hgroup Hres Hndx Hi Hl Hk Hout.
  pose proof (index_selection_out_of_range a w _ _ _ _ _ _ _ Hndx Hi Hl Hk Hout)
    as Hsel.
  assert (artifacts a w
          = ((tr ++ WriteYaml (config_file a w) (VDict d) :: tr0 ++
              [Print "Participant ndx {0} is out of bounds [0,{1})" [VInt i; VInt k]])%list,
             inr (Exit 1))) as Hart.
  { unfold artifacts. rewrite (bind_run _ _ _ _ Hconf). simpl.
    unfold write_yaml. rewrite Hopen. simpl.
    assert (group_branch a w = ([], inl tt)) as ->.
    { unfold group_branch. by destruct a.(analysis_level). }
    simpl. unfold manifest. rewrite (bind_run _ _ _ _ Hres). simpl.
    by rewrite Hsel. }
  rewrite (run_script_stop _ _ _ _ Hart). simpl. repeat split.
  - unfold printed. rewrite existsb_app. simpl.
    rewrite existsb_app. simpl. by rewrite !orb_true_r.
  - unfold written. rewrite omap_app. simpl. rewrite omap_app. simpl.
    pose proof (configure_quiet a w) as Hq1. rewrite Hconf in Hq1.
    pose proof (resolve_manifest_quiet a w d) as Hq2. rewrite Hres in Hq2.
    simpl in Hq1, Hq2.
    assert (forall t : list event, Forall quiet t ->
              omap (fun e => match e with
                             | WriteYaml p _ => Some p
                             | _ => None
                             end) t = []) as Hnone.
    { induction 1 as [|e t [He _] _ IH]; [done|]. simpl.
      destruct e; try done. }
    by rewrite (Hnone _ Hq1), (Hnone _ Hq2).
Qed.

(** With a data configuration file and no index, lines 269-307 load the
    document and write it: nothing on this path looks into it. *)
Lemma loaded_manifest_run file doc tr d :
  arg_given a.(data_config_file) = Some file ->
  arg_given a.(participant_ndx) = None ->
  w.(yaml_load) (w.(realpath) file) = inr doc ->
  configure a w = (tr, inl d) ->
  w.(open_w) (config_file a w) = None ->
  w.(open_w) (artifact_path a ("cpac_data_config_" ++ w.(st) ++ ".yml")) = None ->
  a.(analysis_level) <> group ->
  artifacts a w
    = ((tr ++ [WriteYaml (config_file a w) (VDict d);
               WriteYaml (artifact_path a ("cpac_data_config_" ++ w.(st) ++ ".yml"))
                 doc])%list,
       inl (d, artifact_path a ("cpac_data_config_" ++ w.(st) ++ ".yml"))).
Proof.
  intros Hfile Hndx Hload Hconf Hopen Hopen' Hgroup.
  unfold artifacts. rewrite (bind_run _ _ _ _ Hconf). simpl.
  unfold write_yaml. rewrite Hopen. simpl.
  assert (group_branch a w = ([], inl tt)) as ->.
  { unfold group_branch. by destruct a.(analysis_level). }
  simpl. unfold manifest, resolve_manifest, index_selection.
  rewrite Hfile, Hndx, Hload. simpl.
  unfold write_yaml. by rewrite Hopen'.
Qed.

End ExitStatus.

(** The part of C8 on empty subject lists, as the claim states it: a run
    whose resolved subject list is empty has exit status 1. *)
Definition empty_list_status_1 `{PyRuntime} (a : Args) (w : World) : Prop :=
  forall tr d tr0 dc,
    configure a w = (tr, inl d) ->
    resolve_manifest a w d = (tr0, inl (VDict dc)) ->
    dc !! "subjectList" = Some (VList []) ->
    exit_status (run_script a w).2 = 1.

(** A data configuration file without subjects. *)
Definition no_subjects `{PyFloat} : pyval :=
  VDict (list_to_map [("subjectList", VList [])]).

Section EmptyList.
#[local] Existing Instance DecimalRuntime.float_type.
#[local] Existing Instance DecimalRuntime.runtime.

(** The machine of the scenarios with [/empty.yml], which lists no
    subject. *)
Definition empty_list_machine : World :=
  Scenario.world
    [(Scenario.pipeline_path, VDict Scenario.base_config);
     ("/empty.yml", no_subjects)]
    ["/bids"; "/out"] ["01"; "02"; "03"].

(** [run.py /bids /out participant --data_config_file /empty.yml] *)
Definition empty_list_run : Args :=
  Scenario.with_data_config "/empty.yml"
    (Scenario.args "/bids" "/out" participant).

(** [run.py /bids /out test_config --data_config_file /empty.yml] *)
Definition empty_list_dry_run : Args :=
  Scenario.with_data_config "/empty.yml"
    (Scenario.args "/bids" "/out" test_config).

(** C8, as stated, fails on the empty subject list: the participant run
    on [/empty.yml] resolves to an empty subject list, and it writes both
    files, starts the engine and ends with status 0. *)
Lemma empty_list_status_counterexample :
  ~ empty_list_status_1 empty_list_run empty_list_machine.
Proof.
  intros Hclaim.
  destruct (configure empty_list_run empty_list_machine)
    as [tr [d|o]] eqn:Hconf.
  - specialize (Hclaim tr d [] (list_to_map [("subjectList", VList [])])
                  Hconf eq_refl eq_refl).
    vm_compute in Hclaim. discriminate Hclaim.
  - apply returns_stop in Hconf. vm_compute in Hconf. discriminate Hconf.
Qed.

(** What that run does instead. *)
Lemma empty_list_run_dispatched :
  (run_script empty_list_run empty_list_machine).2 = Exit 0 /\
  written (run_script empty_list_run empty_list_machine).1
    = ["/out/cpac_pipeline_config_20180521143000.yml";
       "/out/cpac_data_config_20180521143000.yml"] /\
  engine_started (run_script empty_list_run empty_list_machine).1 = true.
Proof. split; [|split]; vm_compute; reflexivity. Qed.

End EmptyList.

(** C8, amended.  The exit statuses of the process.  A dry run that
    reaches the dispatcher and a group run that gets its pipeline
    configuration written end with [sys.exit(0)]; a GUI run whose GUI
    returns ends with [sys.exit(1)]; an index outside the subject list
    ends with [sys.exit(1)]; a missing BIDS or output directory prints an
    error and ends with [sys.exit(0)].  A subject list that comes from a
    data configuration file is not checked for emptiness (the check of
    lines 264-266 is on the scan path only): without an index, such a run
    writes the document as loaded, whatever it holds, and ends as the
    dispatcher does. *)
Theorem exit_statuses `{PyRuntime} (a : Args) (w : World) :
  (a.(analysis_level) = test_config ->
   forall tr r, artifacts a w = (tr, inl r) ->
     (run_script a w).2 = Exit 0) /\
  (a.(analysis_level) = group ->
   forall tr d, configure a w = (tr, inl d) ->
     w.(open_w) (config_file a w) = None ->
     (run_script a w).2 = Exit 0) /\
  (a.(analysis_level) = GUI ->
   w.(import_cpac) = None -> w.(gui_run) = None ->
     (run_script a w).2 = Exit 1) /\
  (forall file doc tr d dcf,
     arg_given a.(data_config_file) = Some file ->
     arg_given a.(participant_ndx) = None ->
     w.(yaml_load) (w.(realpath) file) = inr doc ->
     configure a w = (tr, inl d) ->
     dcf = artifact_path a ("cpac_data_config_" ++ w.(st) ++ ".yml") ->
     w.(open_w) (config_file a w) = None ->
     w.(open_w) dcf = None ->
     a.(analysis_level) <> group ->
     run_script a w
       = ((tr ++ [WriteYaml (config_file a w) (VDict d); WriteYaml dcf doc]
              ++ (dispatch a w d dcf).1)%list,
          match (dispatch a w d dcf).2 with
          | inr o => o
          | inl _ => Exit 0
          end)) /\
  (forall tr d tr0 dc ndx i l k trl trk,
     configure a w = (tr, inl d) ->
     w.(open_w) (config_file a w) = None ->
     a.(analysis_level) <> group ->
     resolve_manifest a w d = (tr0, inl dc) ->
     arg_given a.(participant_ndx) = Some ndx ->
     int_of_str ndx = Some i ->
     subscript dc "subjectList" = (trl, inl l) ->
     py_len l = (trk, inl k) ->
     ~ (0 <= i < k) ->
     (run_script a w).2 = Exit 1) /\
  (a.(analysis_level) <> GUI ->
   missing w a.(bids_dir) \/ missing w a.(output_dir) ->
     (run_script a w).2 = Exit 0 /\
     printed "Error! Could not find {0}" (run_script a w).1 = true).
Proof.
  split; [|split; [|split; [|split; [|split]]]].
  - intros Hlevel tr r Hart.
    rewrite (run_script_dispatch _ _ _ _ Hart).
    by rewrite dispatch_test_config.
  - intros Hlevel tr d. by apply group_run.
  - intros Hlevel Himport Hgui. by rewrite gui_returns_run.
  - intros file doc tr d dcf Hfile Hndx Hload Hconf -> Hopen Hopen' Hgroup.
    rewrite (run_script_dispatch _ _ _ _
               (loaded_manifest_run a w file doc tr d
                  Hfile Hndx Hload Hconf Hopen Hopen' Hgroup)).
    simpl. by rewrite <- app_assoc.
  - intros tr d tr0 dc ndx i l k trl trk Hconf Hopen Hgroup Hres Hndx Hi Hl Hk Hout.
    by destruct (out_of_range_run a w _ _ _ _ _ _ _ _ _ _
                   Hconf Hopen Hgroup Hres Hndx Hi Hl Hk Hout).
  - intros Hlevel Hmissing.
    destruct (missing_directory_run a w Hlevel Hmissing) as [dir ->]. done.
Qed.

Section StatusRuns.
#[local] Existing Instance DecimalRuntime.float_type.
#[local] Existing Instance DecimalRuntime.runtime.

(** C8, on six runs: the dry run; a group run; a GUI run; the dry run
    on a data configuration file without subjects; index 2 into two
    subjects; a BIDS directory that does not exist. *)
Lemma exit_statuses_witness :
  (run_script Scenario.dry_run Scenario.machine).2 = Exit 0 /\
  (run_script (Scenario.args "/bids" "/out" group) Scenario.machine).2 = Exit 0 /\
  (run_script (Scenario.args "/bids" "/out" GUI) Scenario.machine).2 = Exit 1 /\
  ((run_script empty_list_dry_run empty_list_machine).2 = Exit 0 /\
   written (run_script empty_list_dry_run empty_list_machine).1
     = ["/out/cpac_pipeline_config_20180521143000.yml";
        "/out/cpac_data_config_20180521143000.yml"]) /\
  (run_script third_of_two Scenario.machine).2 = Exit 1 /\
  (run_script (Scenario.args "/nowhere" "/out" participant) Scenario.machine).2
    = Exit 0.
Proof.
  split; [|split; [|split; [|split; [|split]]]].
  - destruct (exit_statuses Scenario.dry_run Scenario.machine)
      as (Hdry & _).
    destruct (artifacts Scenario.dry_run Scenario.machine)
      as [tr [r|o]] eqn:Hart.
    + by apply (Hdry eq_refl tr r).
    + apply returns_stop in Hart. vm_compute in Hart. discriminate Hart.
  - destruct (exit_statuses (Scenario.args "/bids" "/out" group) Scenario.machine)
      as (_ & Hgroup & _).
    destruct (configure (Scenario.args "/bids" "/out" group) Scenario.machine)
      as [tr [d|o]] eqn:Hconf.
    + by apply (Hgroup eq_refl tr d).
    + apply returns_stop in Hconf. vm_compute in Hconf. discriminate Hconf.
  - destruct (exit_statuses (Scenario.args "/bids" "/out" GUI) Scenario.machine)
      as (_ & _ & Hgui & _).
    apply Hgui; reflexivity.
  - destruct (exit_statuses empty_list_dry_run empty_list_machine)
      as (_ & _ & _ & Hloaded & _).
    pose proof (configure_quiet empty_list_dry_run empty_list_machine) as Hq.
    destruct (configure empty_list_dry_run empty_list_machine)
      as [tr [d|o]] eqn:Hconf.
    + rewrite (Hloaded "/empty.yml" no_subjects tr d
                 "/out/cpac_data_config_20180521143000.yml"
                 eq_refl eq_refl eq_refl eq_refl eq_refl eq_refl eq_refl);
        [|done].
      rewrite (dispatch_test_config empty_list_dry_run empty_list_machine d
                 "/out/cpac_data_config_20180521143000.yml" eq_refl).
      split; [reflexivity|].
      unfold fst, written. rewrite omap_app.
      fold (written tr). simpl in Hq. rewrite (written_quiet tr Hq). reflexivity.
    + apply returns_stop in Hconf. vm_compute in Hconf. discriminate Hconf.
  - destruct (exit_statuses third_of_two Scenario.machine)
      as (_ & _ & _ & _ & Hrange & _).
    destruct (configure third_of_two Scenario.machine)
      as [tr [d|o]] eqn:Hconf.
    + apply (Hrange tr d [] Scenario.two_subjects "2" 2
               (VList [VStr "sub-01"; VStr "sub-02"]) 2 [] []);
        try done; try (vm_compute; reflexivity).
      lia.
    + apply returns_stop in Hconf. vm_compute in Hconf. discriminate Hconf.
  - destruct (exit_statuses (Scenario.args "/nowhere" "/out" participant)
                Scenario.machine) as (_ & _ & _ & _ & _ & Hmissing).
    apply Hmissing; [done|]. left. split; vm_compute; reflexivity.
Defined.

End StatusRuns.

(** ** Local and remote destinations *)

Section Destinations.
Context `{PyRuntime}.
Variable a : Args.
Variable w : World.

(** Every file of a run is written in the artifact directory: the
    pipeline configuration, or a data configuration. *)
Lemma run_writes p doc :
  WriteYaml p doc ∈ (run_script a w).1 ->
  exists name,
    p = artifact_path a name /\
    (name = "cpac_pipeline_config_" ++ w.(st) ++ ".yml" \/ data_config_name w name).
Proof.
  rewrite run_script_trace. unfold script. intros Hin.
  apply elem_of_bind_trace in Hin as [Hin | (tr & r & _ & Hin)]; cycle 1.
  { pose proof (dispatch_trace a w r.1 r.2) as Hd.
    rewrite Forall_forall in Hd. by apply Hd in Hin. }
  unfold artifacts in Hin.
  apply elem_of_bind_trace in Hin as [Hin | (tr & d & Hconf & Hin)].
  { pose proof configure_quiet a w as Hq.
    rewrite Forall_forall in Hq. by destruct (Hq _ Hin). }
  apply elem_of_bind_trace in Hin as [Hin | (? & ? & _ & Hin)].
  { unfold write_yaml in Hin.
    apply elem_of_bind_trace in Hin as [Hin | (? & ? & _ & Hin)].
    - destruct (open_w w (config_file a w)); simpl in Hin; by apply elem_of_nil in Hin.
    - simpl in Hin. apply list_elem_of_singleton in Hin. injection Hin as -> _.
      eexists. split; [reflexivity | by left]. }
  apply elem_of_bind_trace in Hin as [Hin | (? & ? & _ & Hin)].
  { pose proof group_branch_quiet a w as Hq.
    rewrite Forall_forall in Hq. by destruct (Hq _ Hin). }
  apply elem_of_bind_trace in Hin as [Hin | (? & ? & _ & Hin)].
  - pose proof (manifest_trace a w d) as Hm. rewrite Forall_forall in Hm.
    destruct (Hm _ Hin) as [_ Hw].
    destruct (Hw _ _ eq_refl) as (name & Hname & Hp).
    exists name. by split; [|right].
  - simpl in Hin. by apply elem_of_nil in Hin.
Qed.

Lemma configured_directories tr d :
  configure a w = (tr, inl d) ->
  d !! "crashLogDirectory" = Some (VStr (path_join (control_root a) "crash")) /\
  d !! "logDirectory" = Some (VStr (path_join (control_root a) "log")).
Proof.
  intros (base & tr1 & tr2 & _ & Hmerge & _ & _)%configure_inv.
  by eapply merged_directories.
Qed.

(** The directory checks of lines 113-121 ask nothing of a directory
    given as an S3 URL. *)
Lemma check_directories_s3_prefix :
  startswith "s3://" (lower a.(bids_dir)) = true ->
  startswith "s3://" (lower a.(output_dir)) = true ->
  check_directories a w = ([], inl tt).
Proof. intros Hb Ho. unfold check_directories. by rewrite Hb, Ho. Qed.

Lemma missing_bids_run :
  a.(analysis_level) <> GUI ->
  startswith "s3://" (lower a.(bids_dir)) = false ->
  w.(path_exists) a.(bids_dir) = false ->
  run_script a w
    = ([PrintArgs; Print "Error! Could not find {0}" [VStr a.(bids_dir)]], Exit 0).
Proof.
  intros Hlevel Hs3 Hex. apply run_script_stop.
  assert (gui_branch a w = ([], inl tt)) as Hgui.
  { unfold gui_branch. by destruct a.(analysis_level). }
  unfold artifacts, configure, check_directories.
  by rewrite Hgui, Hs3, Hex.
Qed.

End Destinations.

(** C10. The output directory counts as remote exactly when its
    lower-cased string has ["s3://"] somewhere in it.  That test gives
    the root of the crash and log directories and of both artifacts:
    [/scratch] when it holds (also for a path that only has ["s3://"] in
    its middle), the output directory when it does not.  The BIDS
    directory is excused from the existence check only when its
    lower-cased string starts with ["s3://"]: one that has it elsewhere
    and does not exist ends the run. *)
Theorem remote_by_substring `{PyRuntime} (a : Args) (w : World) :
  let remote := contains "s3://" (lower a.(output_dir)) in
  let root := if remote then "/scratch" else a.(output_dir) in
  (remote = true <-> exists u v, lower a.(output_dir) = u ++ "s3://" ++ v) /\
  (forall tr d, configure a w = (tr, inl d) ->
     d !! "crashLogDirectory" = Some (VStr (path_join root "crash")) /\
     d !! "logDirectory" = Some (VStr (path_join root "log"))) /\
  config_file a w = path_join root ("cpac_pipeline_config_" ++ w.(st) ++ ".yml") /\
  (forall p doc, WriteYaml p doc ∈ (run_script a w).1 ->
     exists name,
       p = path_join root name /\
       (name = "cpac_pipeline_config_" ++ w.(st) ++ ".yml" \/
        name = "cpac_data_config_" ++ w.(st) ++ ".yml" \/
        exists ndx, name = "cpac_data_config_pt" ++ ndx ++ "_" ++ w.(st) ++ ".yml")) /\
  (startswith "s3://" (lower a.(bids_dir)) = true
     <-> exists v, lower a.(bids_dir) = "s3://" ++ v) /\
  (startswith "s3://" (lower a.(bids_dir)) = true ->
   startswith "s3://" (lower a.(output_dir)) = true ->
     check_directories a w = ([], inl tt)) /\
  (a.(analysis_level) <> GUI ->
   startswith "s3://" (lower a.(bids_dir)) = false ->
   w.(path_exists) a.(bids_dir) = false ->
     run_script a w
       = ([PrintArgs; Print "Error! Could not find {0}" [VStr a.(bids_dir)]],
          Exit 0)).
Proof.
  cbv zeta. fold (control_root a). repeat split.
  - by intros ?%contains_spec.
  - by intros ?%contains_spec.
  - by eapply configured_directories.
  - by eapply configured_directories.
  - apply artifact_path_root.
  - intros p doc (name & -> & Hname)%run_writes.
    exists name. split; [apply artifact_path_root|].
    destruct Hname as [?|[?|?]]; auto.
  - by intros ?%startswith_spec.
  - by intros ?%startswith_spec.
  - apply check_directories_s3_prefix.
  - apply missing_bids_run.
Qed.

(** A local output directory with ["s3://"] in the middle of its name. *)
Definition odd_machine : World :=
  Scenario.world
    [(Scenario.pipeline_path, VDict Scenario.base_config);
     ("/data.yml", Scenario.two_subjects)]
    ["/bids"; "/out/s3://x"] ["01"; "02"; "03"].

Definition odd_output : Args :=
  Scenario.with_data_config "/data.yml"
    (Scenario.args "/bids" "/out/s3://x" test_config).

Section OddOutput.
#[local] Existing Instance DecimalRuntime.float_type.
#[local] Existing Instance DecimalRuntime.runtime.

(** C10, on a dry run into [/out/s3://x]: crash and log directories and
    both artifacts are under [/scratch]; and a BIDS directory
    [/in/s3://x] that does not exist ends the run. *)
Lemma remote_by_substring_witness :
  resolved_config odd_output odd_machine !! "crashLogDirectory"
    = Some (VStr "/scratch/crash") /\
  resolved_config odd_output odd_machine !! "logDirectory"
    = Some (VStr "/scratch/log") /\
  written (run_script odd_output odd_machine).1
    = ["/scratch/cpac_pipeline_config_20180521143000.yml";
       "/scratch/cpac_data_config_20180521143000.yml"] /\
  run_script (Scenario.args "/in/s3://x" "/out" participant) Scenario.machine
    = ([PrintArgs; Print "Error! Could not find {0}" [VStr "/in/s3://x"]], Exit 0).
Proof.
  destruct (remote_by_substring odd_output odd_machine)
    as (_ & Hdirs & _ & _ & _ & _ & _).
  destruct (remote_by_substring (Scenario.args "/in/s3://x" "/out" participant)
              Scenario.machine) as (_ & _ & _ & _ & _ & _ & Hbids).
  assert (returns (configure odd_output odd_machine) = true) as Hok
    by (vm_compute; reflexivity).
  unfold resolved_config.
  destruct (configure odd_output odd_machine) as [tr [d|o]] eqn:Hconf;
    [|discriminate Hok].
  destruct (Hdirs tr d eq_refl) as [Hcrash Hlog].
  split; [|split; [|split]].
  - exact Hcrash.
  - exact Hlog.
  - vm_compute. reflexivity.
  - apply Hbids; [done | reflexivity | reflexivity].
Defined.

End OddOutput.

(** * Further properties of the script *)

(** ** The output loop of [run] (lines 16-24)

    [run] starts the command and then loops: it reads a line of the
    command's output, drops the last character of it, prints what is left,
    and leaves the loop when that is empty and [process.poll()] says that
    the command has ended.  The command is seen through what the loop
    observes of it: for each turn, the string that [readline] returns (a
    line with its newline, or the empty string at the end of the output)
    and whether [poll] would find the command ended on that turn. *)
Module RunLoop.

(** [s[:-1]] *)
Fixpoint drop_last (s : string) : string :=
  match s with
  | EmptyString => EmptyString
  | String _ EmptyString => EmptyString
  | String c s' => String c (drop_last s')
  end.

(** The test of line 23 on one turn. *)
Definition leaves (turn : string * bool) : bool :=
  String.eqb (drop_last turn.1) "" && turn.2.

(** The lines printed while the loop goes through [turns]: [Some] when
    the loop has ended within them, [None] when it is still running after
    the last one. *)
Fixpoint run_loop (turns : list (string * bool)) : option (list string) :=
  match turns with
  | [] => None
  | turn :: turns' =>
      let line := drop_last turn.1 in
      if leaves turn then Some [line]
      else cons line <$> run_loop turns'
  end.

Lemma drop_last_snoc (s : string) (c : ascii) :
  drop_last (s ++ String c EmptyString) = s.
Proof.
  induction s as [|b s IH]; [done|].
  change (drop_last (String b (s ++ String c EmptyString)) = String b s).
  simpl. rewrite IH. by destruct s.
Qed.

Lemma run_loop_leaves before turn after :
  Forall (fun t => leaves t = false) before ->
  leaves turn = true ->
  run_loop (before ++ turn :: after)%list
    = Some (((fun t : string * bool => drop_last t.1) <$> before) ++ [""])%list.
Proof.
  intros Hbefore Hturn. induction Hbefore as [|t before Ht _ IH]; simpl.
  - rewrite Hturn. unfold leaves in Hturn.
    apply andb_true_iff in Hturn as [Hempty _].
    by apply String.eqb_eq in Hempty as ->.
  - by rewrite Ht, IH.
Qed.

Lemma run_loop_running turns :
  Forall (fun t => leaves t = false) turns -> run_loop turns = None.
Proof.
  induction 1 as [|t turns Ht _ IH]; simpl; [done|]. by rewrite Ht, IH.
Qed.

End RunLoop.

(** X1. What [run] prints of a command's output.  Every line is printed
    without its last character (the newline, or a real character when the
    output does not end in one).  The loop ends at the first turn that
    reads an empty or a blank line while the command has ended: what the
    command wrote after a blank line is then never printed.  As long as no
    turn is of that kind the loop goes on. *)
Theorem run_output_cut_short :
  (forall before turn after,
     Forall (fun t => RunLoop.leaves t = false) before ->
     RunLoop.leaves turn = true ->
     RunLoop.run_loop (before ++ turn :: after)%list
       = Some (((fun t : string * bool => RunLoop.drop_last t.1) <$> before)
               ++ [""])%list) /\
  (forall turns,
     Forall (fun t => RunLoop.leaves t = false) turns ->
     RunLoop.run_loop turns = None) /\
  (forall s c, RunLoop.drop_last (s ++ String c EmptyString) = s).
Proof.
  split; [|split].
  - apply RunLoop.run_loop_leaves.
  - apply RunLoop.run_loop_running.
  - apply RunLoop.drop_last_snoc.
Qed.

(** X1, on a command that writes "ok", a blank line and "lost" and has
    ended when the blank line is read: "lost" is not printed. *)
Lemma run_output_cut_short_witness :
  RunLoop.run_loop [("ok" ++ nl, false); (nl, true); ("lost" ++ nl, true)]
    = Some ["ok"; ""].
Proof.
  apply (proj1 run_output_cut_short [("ok" ++ nl, false)] (nl, true)
           [("lost" ++ nl, true)]).
  - repeat constructor.
  - reflexivity.
Defined.

(** ** Whole runs: what is started and written, and when *)

(** The command lines that a trace hands to [run], as strings. *)
Definition shells `{PyFloat} (tr : list event) : list string :=
  omap (fun e => match e with
                 | Shell cmd => Some cmd
                 | _ => None
                 end) tr.

Definition is_shell `{PyFloat} (e : event) : bool :=
  match e with
  | Shell _ => true
  | _ => false
  end.

(** lines 137-205: the configuration stage after the validator *)
Definition after_validation `{PyRuntime} (a : Args) (w : World)
  : M (gmap string pyval) :=
  d <- load_pipeline_config a w ;;
  d <- override_merger a w d ;;
  report a d ;;;
  ret d.

(** lines 207-326: the run after the configuration stage *)
Definition after_configuration `{PyRuntime} (a : Args) (w : World)
    (d : gmap string pyval) : M unit :=
  r <- (write_yaml w (config_file a w) (VDict d) ;;;
        group_branch a w ;;;
        data_config_file <- manifest a w d ;;
        ret (d, data_config_file)) ;;
  dispatch a w r.1 r.2.

Section RunFacts.
Context `{PyRuntime}.
Variable a : Args.
Variable w : World.

Lemma bind_assoc {A B C} (m : M A) (f : A -> M B) (g : B -> M C) :
  bind (bind m f) g = bind m (fun x => bind (f x) g).
Proof.
  destruct m as [tr [x|o]]; simpl; [|done].
  destruct (f x) as [tr2 [y|o]]; simpl; [|done].
  destruct (g y) as [tr3 r]. by rewrite app_assoc.
Qed.

Lemma script_stages :
  script a w = bind (configure a w) (after_configuration a w).
Proof. unfold script, artifacts. by rewrite bind_assoc. Qed.

Lemma run_script_eq :
  run_script a w
    = ((script a w).1,
       match (script a w).2 with
       | inr o => o
       | inl _ => Exit 0
       end).
Proof. unfold run_script. by destruct (script a w) as [tr [[]|o]]. Qed.

Lemma configure_stops_run tr o :
  configure a w = (tr, inr o) -> run_script a w = (tr, o).
Proof.
  intros Hconf. apply run_script_stop. unfold artifacts. by rewrite Hconf.
Qed.

Lemma shells_no_shell (tr : list event) :
  Forall (fun e => is_shell e = false) tr -> shells tr = [].
Proof.
  induction 1 as [|e tr He _ IH]; [done|].
  destruct e; try exact IH. discriminate He.
Qed.

Lemma after_validation_no_shell :
  Forall (fun e => is_shell e = false) (after_validation a w).1.
Proof. unfold after_validation. trace_tac. Qed.

Lemma after_configuration_no_shell d :
  Forall (fun e => is_shell e = false) (after_configuration a w d).1.
Proof. unfold after_configuration. trace_tac. Qed.

Lemma gui_branch_skip :
  a.(analysis_level) <> GUI -> gui_branch a w = ([], inl tt).
Proof. intros Hlevel. unfold gui_branch. by destruct a.(analysis_level). Qed.

Lemma run_shells_checked :
  a.(analysis_level) <> GUI ->
  shells (run_script a w).1
    = match check_directories a w with
      | (_, inl _) => shells (validate_input a).1
      | (_, inr _) => []
      end.
Proof.
  intros Hgui. rewrite run_script_trace, script_stages.
  unfold configure. rewrite (gui_branch_skip Hgui). simpl.
  fold (after_validation a w).
  assert (check_directories a w = ([], inl tt) \/
          exists dir, check_directories a w
            = ([Print "Error! Could not find {0}" [VStr dir]], inr (Exit 0)))
    as Hcheck.
  { unfold check_directories.
    destruct (negb _ && negb _); simpl; [eauto|].
    destruct (negb _ && negb _); simpl; eauto. }
  destruct Hcheck as [-> | [dir ->]]; simpl; [|done].
  assert (validate_input a = ((validate_input a).1, inl tt)) as Hval.
  { unfold validate_input.
    destruct (arg_given _); [done|]. by destruct a.(skip_bids_validator). }
  rewrite Hval. simpl.
  pose proof after_validation_no_shell as Hafter.
  destruct (after_validation a w) as [tr2 [d|o]]; simpl in *.
  + pose proof (after_configuration_no_shell d) as Hrest.
    destruct (after_configuration a w d) as [tr3 r]. simpl in *.
    unfold shells. rewrite !omap_app.
    fold (shells tr2) (shells tr3).
    rewrite (shells_no_shell _ Hafter), (shells_no_shell _ Hrest).
    by rewrite !app_nil_r.
  + unfold shells. rewrite omap_app. fold (shells tr2).
    by rewrite (shells_no_shell _ Hafter), app_nil_r.
Qed.

Lemma gui_run_trace :
  a.(analysis_level) = GUI ->
  run_script a w
    = match w.(import_cpac) with
      | Some e => ([PrintArgs; Print "Starting CPAC GUI" []], Raised e)
      | None =>
          ([PrintArgs; Print "Starting CPAC GUI" []; GuiRun],
           match w.(gui_run) with
           | Some e => Raised e
           | None => Exit 1
           end)
      end.
Proof.
  intros Hlevel.
  assert (exists tr o, configure a w = (tr, inr o) /\
            (tr, o) = match w.(import_cpac) with
                      | Some e => ([PrintArgs; Print "Starting CPAC GUI" []], Raised e)
                      | None =>
                          ([PrintArgs; Print "Starting CPAC GUI" []; GuiRun],
                           match w.(gui_run) with
                           | Some e => Raised e
                           | None => Exit 1
                           end)
                      end) as (tr & o & Hconf & <-).
  { unfold configure, gui_branch. rewrite Hlevel.
    destruct w.(import_cpac), w.(gui_run); simpl; eauto. }
  by apply configure_stops_run.
Qed.

End RunFacts.

(** X2. A GUI run does nothing but start the GUI: it checks no
    directory, starts no validator, reads no pipeline file and writes
    nothing, whatever the other arguments are.  It ends with the
    exception of the import or of the GUI, or else with status 1, never
    with status 0. *)
Theorem gui_short_circuits `{PyRuntime} (a : Args) (w : World) :
  a.(analysis_level) = GUI ->
  run_script a w
    = match w.(import_cpac) with
      | Some e => ([PrintArgs; Print "Starting CPAC GUI" []], Raised e)
      | None =>
          ([PrintArgs; Print "Starting CPAC GUI" []; GuiRun],
           match w.(gui_run) with
           | Some e => Raised e
           | None => Exit 1
           end)
      end /\
  written (run_script a w).1 = [] /\
  shells (run_script a w).1 = [] /\
  exit_status (run_script a w).2 = 1.
Proof.
  intros Hlevel. rewrite (gui_run_trace a w Hlevel).
  split; [done|]. by destruct w.(import_cpac), w.(gui_run).
Qed.

Section GuiRuns.
#[local] Existing Instance DecimalRuntime.float_type.
#[local] Existing Instance DecimalRuntime.runtime.

(** X2, on a GUI run whose two directories do not exist. *)
Lemma gui_short_circuits_witness :
  run_script (Scenario.args "/nowhere" "/nowhere" GUI) Scenario.machine
    = ([PrintArgs; Print "Starting CPAC GUI" []; GuiRun], Exit 1).
Proof.
  by destruct (gui_short_circuits (Scenario.args "/nowhere" "/nowhere" GUI)
                 Scenario.machine eq_refl) as [-> _].
Defined.

End GuiRuns.

(** X3. The output directory is excused from the existence check by the
    prefix test, not by the substring test that later routes the
    artifacts: an output directory that does not start with ["s3://"]
    and does not exist ends the run with the error message and status 0,
    also when its name has ["s3://"] further on. *)
Theorem output_dir_checked_by_prefix `{PyRuntime} (a : Args) (w : World) :
  a.(analysis_level) <> GUI ->
  startswith "s3://" (lower a.(bids_dir)) = true
    \/ w.(path_exists) a.(bids_dir) = true ->
  startswith "s3://" (lower a.(output_dir)) = false ->
  w.(path_exists) a.(output_dir) = false ->
  run_script a w
    = ([PrintArgs; Print "Error! Could not find {0}" [VStr a.(output_dir)]],
       Exit 0).
Proof.
  intros Hlevel Hbids Hs3 Hex. apply configure_stops_run.
  unfold configure, check_directories.
  rewrite (gui_branch_skip a w Hlevel), Hs3, Hex.
  by destruct Hbids as [-> | ->]; rewrite ?andb_false_r.
Qed.

Section OutputGone.
#[local] Existing Instance DecimalRuntime.float_type.
#[local] Existing Instance DecimalRuntime.runtime.

(** X3, on an output directory [/gone/s3://x] that does not exist: the
    substring test holds of it, and the run ends at the check. *)
Lemma output_dir_checked_by_prefix_witness :
  contains "s3://" (lower "/gone/s3://x") = true /\
  run_script (Scenario.args "/bids" "/gone/s3://x" participant) Scenario.machine
    = ([PrintArgs; Print "Error! Could not find {0}" [VStr "/gone/s3://x"]],
       Exit 0).
Proof.
  split; [reflexivity|].
  apply (output_dir_checked_by_prefix
           (Scenario.args "/bids" "/gone/s3://x" participant) Scenario.machine).
  - done.
  - right. reflexivity.
  - reflexivity.
  - reflexivity.
Defined.

End OutputGone.

(** X4. The calls of [run].  The script calls [run] at most once, never
    on a GUI run and only after both directory checks have passed.  With
    [--bids_validator_config] the command line handed over is
    [bids-validator --config <config> <bids_dir>], also when
    [--skip_bids_validator] is given; without it, the command line is
    [bids-validator <bids_dir>] unless [--skip_bids_validator] is given.
    Both options are put into the command line as they are, without
    quoting: [run] gives the line to the shell, and what the shell makes
    of it (a blank or a [;] in a name) is no part of this statement.  The
    call comes before the pipeline file is read, so also in runs that fail
    later. *)
Theorem validator_invocation `{PyRuntime} (a : Args) (w : World) :
  shells (run_script a w).1
    = match a.(analysis_level) with
      | GUI => []
      | _ =>
          match check_directories a w with
          | (_, inr _) => []
          | (_, inl _) =>
              match arg_given a.(bids_validator_config) with
              | Some config =>
                  ["bids-validator --config " ++ config ++ " " ++ a.(bids_dir)]
              | None =>
                  if a.(skip_bids_validator) then []
                  else ["bids-validator " ++ a.(bids_dir)]
              end
          end
      end.
Proof.
  assert (shells (validate_input a).1
          = match arg_given a.(bids_validator_config) with
            | Some config =>
                ["bids-validator --config " ++ config ++ " " ++ a.(bids_dir)]
            | None =>
                if a.(skip_bids_validator) then []
                else ["bids-validator " ++ a.(bids_dir)]
            end) as Hval.
  { unfold validate_input.
    destruct (arg_given _); [done|]. by destruct a.(skip_bids_validator). }
  destruct a.(analysis_level) eqn:Hlevel.
  - rewrite run_shells_checked by congruence.
    destruct (check_directories a w) as [tr [[]|o]]; [exact Hval | done].
  - rewrite run_shells_checked by congruence.
    destruct (check_directories a w) as [tr [[]|o]]; [exact Hval | done].
  - rewrite run_shells_checked by congruence.
    destruct (check_directories a w) as [tr [[]|o]]; [exact Hval | done].
  - rewrite (gui_run_trace a w Hlevel).
    by destruct w.(import_cpac), w.(gui_run).
Qed.

(** ** More of the resolved pipeline configuration *)

Section MergerFacts.
Context `{PyRuntime}.
Variable a : Args.
Variable w : World.

Lemma merged_fixed base tr d :
  override_merger a w base = (tr, inl d) ->
  d !! "outputDirectory" = Some (VStr (path_join a.(output_dir) "output")) /\
  d !! "numParticipantsAtOnce" = Some (VInt 1).
Proof.
  intros (d1 & d2 & d3 & Hm & Hc & Hk & Hw)%override_merger_inv.
  apply set_memory_inv in Hm as (_ & x & Hx & ->).
  apply set_cores_inv in Hc as (_ & n & v & t & _ & _ & _ & ->).
  apply set_credentials_inv in Hk as [_ Hk].
  destruct (set_directories_lookup a base) as (_ & _ & Hout & _).
  split.
  - rewrite (set_working_dir_frame _ _ _ _ _ Hw), set_logging_frame, Hk by done.
    by rewrite !lookup_insert_ne by done.
  - rewrite (set_working_dir_frame _ _ _ _ _ Hw), set_logging_frame, Hk by done.
    by rewrite lookup_insert_ne, lookup_insert_eq by done.
Qed.

Lemma merged_working_dir base tr d :
  override_merger a w base = (tr, inl d) ->
  (a.(save_working_dir) = false ->
     d !! "removeWorkingDir" = Some (VBool true) /\
     d !! "workingDirectory" = Some (VStr (path_join "/scratch" "working"))) /\
  (a.(save_working_dir) = true ->
   contains "s3://" (lower a.(output_dir)) = false ->
     d !! "removeWorkingDir" = Some (VBool false) /\
     d !! "workingDirectory"
       = Some (VStr (path_join a.(output_dir) "working"))).
Proof.
  intros (d1 & d2 & d3 & _ & _ & _ & Hw)%override_merger_inv.
  unfold set_working_dir, output_is_local in Hw. split.
  - intros Hsave. rewrite Hsave in Hw. injection Hw as _ <-.
    by rewrite lookup_insert_ne, !lookup_insert_eq by done.
  - intros Hsave Hlocal. rewrite Hsave, Hlocal in Hw. injection Hw as _ <-.
    by rewrite lookup_insert_ne, !lookup_insert_eq by done.
Qed.

Lemma set_credentials_given d tr d' :
  set_credentials a w d = (tr, inl d') ->
  (forall c, arg_given a.(aws_input_creds) = Some c ->
     w.(path_isfile) c = true /\
     d' !! "awsCredentialsFile" = Some (VStr c)) /\
  (forall c, arg_given a.(aws_output_creds) = Some c ->
     w.(path_isfile) c = true /\
     d' !! "awsOutputBucketCredentials" = Some (VStr c)).
Proof.
  unfold set_credentials. intros Hrun.
  ok_inv; split; intros c [= <-];
    by rewrite ?lookup_insert_eq, ?lookup_insert_ne, ?lookup_insert_eq by done.
Qed.

Lemma merged_credentials base tr d :
  override_merger a w base = (tr, inl d) ->
  (forall c, arg_given a.(aws_input_creds) = Some c ->
     w.(path_isfile) c = true /\
     d !! "awsCredentialsFile" = Some (VStr c)) /\
  (forall c, arg_given a.(aws_output_creds) = Some c ->
     w.(path_isfile) c = true /\
     d !! "awsOutputBucketCredentials" = Some (VStr c)).
Proof.
  intros (d1 & d2 & d3 & _ & _ & Hk & Hw)%override_merger_inv.
  apply set_credentials_given in Hk as [Hin Hout].
  split; intros c Hc.
  - destruct (Hin c Hc) as [Hfile Hkey]. split; [done|].
    by rewrite (set_working_dir_frame _ _ _ _ _ Hw), set_logging_frame.
  - destruct (Hout c Hc) as [Hfile Hkey]. split; [done|].
    by rewrite (set_working_dir_frame _ _ _ _ _ Hw), set_logging_frame.
Qed.

(** A run whose configuration stage does not return writes nothing and
    starts no engine. *)
Lemma configure_stops_quiet :
  (forall tr d, configure a w <> (tr, inl d)) ->
  written (run_script a w).1 = [] /\ engine_started (run_script a w).1 = false.
Proof.
  intros Hstop. pose proof (configure_quiet a w) as Hquiet.
  destruct (configure a w) as [tr [d|o]] eqn:Hconf; [by destruct (Hstop tr d)|].
  rewrite (configure_stops_run a w _ _ Hconf). simpl in *. split.
  - by apply written_quiet.
  - apply no_engine_started. eapply Forall_impl; [exact Hquiet|]. by intros e [_ He].
Qed.

End MergerFacts.

(** X5. Two entries that the merger always overwrites: in every
    pipeline configuration that a run writes, [outputDirectory] is
    [output] under the output directory as given (for a remote
    destination too: it is not moved to the scratch root), and
    [numParticipantsAtOnce] is 1, whatever the base document says. *)
Theorem output_directory_and_batch_size `{PyRuntime} (a : Args) (w : World)
    (doc : pyval) :
  WriteYaml (config_file a w) doc ∈ (run_script a w).1 ->
  exists d,
    doc = VDict d /\
    d !! "outputDirectory" = Some (VStr (path_join a.(output_dir) "output")) /\
    d !! "numParticipantsAtOnce" = Some (VInt 1).
Proof.
  intros (tr & d & Hconf & ->)%pipeline_write_inv.
  apply configure_inv in Hconf as (base & tr1 & tr2 & _ & Hmerge & _ & _).
  exists d. split; [done|]. by eapply merged_fixed.
Qed.

Section OutputOnS3.
#[local] Existing Instance DecimalRuntime.float_type.
#[local] Existing Instance DecimalRuntime.runtime.

(** X5, on the dry run into [s3://bucket/out]. *)
Lemma output_directory_and_batch_size_witness :
  exists d,
    VDict (resolved_config retained_on_s3 Scenario.machine) = VDict d /\
    d !! "outputDirectory" = Some (VStr "s3://bucket/out/output") /\
    d !! "numParticipantsAtOnce" = Some (VInt 1).
Proof.
  destruct (configure retained_on_s3 Scenario.machine) as [tr [d0|o]] eqn:Hconf.
  - destruct (output_directory_and_batch_size retained_on_s3 Scenario.machine
                (VDict (resolved_config retained_on_s3 Scenario.machine)))
      as (d & Hd & Hout & Hbatch).
    + eapply resolved_config_written; [exact Hconf | reflexivity].
    + by exists d.
  - apply returns_stop in Hconf. vm_compute in Hconf. discriminate Hconf.
Defined.

End OutputOnS3.

(** X6. Credentials.  In every pipeline configuration that a run
    writes, a credentials option that was given names a file and is
    recorded under its key ([awsCredentialsFile] for the input,
    [awsOutputBucketCredentials] for the output).  A run with a
    credentials option that names no file writes nothing at all and starts
    no engine. *)
Theorem credentials_must_be_files `{PyRuntime} (a : Args) (w : World) :
  (forall doc, WriteYaml (config_file a w) doc ∈ (run_script a w).1 ->
     exists d,
       doc = VDict d /\
       (forall c, arg_given a.(aws_input_creds) = Some c ->
          w.(path_isfile) c = true /\
          d !! "awsCredentialsFile" = Some (VStr c)) /\
       (forall c, arg_given a.(aws_output_creds) = Some c ->
          w.(path_isfile) c = true /\
          d !! "awsOutputBucketCredentials" = Some (VStr c))) /\
  (forall c,
     (arg_given a.(aws_input_creds) = Some c
      \/ arg_given a.(aws_output_creds) = Some c) ->
     w.(path_isfile) c = false ->
     written (run_script a w).1 = [] /\
     engine_started (run_script a w).1 = false).
Proof.
  split.
  - intros doc (tr & d & Hconf & ->)%pipeline_write_inv.
    apply configure_inv in Hconf as (base & tr1 & tr2 & _ & Hmerge & _ & _).
    exists d. split; [done|]. by eapply merged_credentials.
  - intros c Hgiven Hfile. apply configure_stops_quiet.
    intros tr d (base & tr1 & tr2 & _ & Hmerge & _ & _)%configure_inv.
    apply merged_credentials in Hmerge as [Hin Hout].
    destruct Hgiven as [Hc | Hc].
    + destruct (Hin c Hc) as [Hyes _]. congruence.
    + destruct (Hout c Hc) as [Hyes _]. congruence.
Qed.

(** [--aws_input_creds] on the dry run of [Scenario]. *)
Definition with_input_creds (c : string) : Args := {|
  bids_dir := "/bids";
  output_dir := "/out";
  analysis_level := test_config;
  pipeline_file := Scenario.pipeline_path;
  data_config_file := Some "/data.yml";
  aws_input_creds := Some c;
  aws_output_creds := None;
  n_cpus := "1";
  mem_mb := None;
  mem_gb := None;
  save_working_dir := false;
  disable_file_logging := false;
  participant_label := None;
  participant_ndx := None;
  bids_validator_config := None;
  skip_bids_validator := false;
|}.

Section CredentialRuns.
#[local] Existing Instance DecimalRuntime.float_type.
#[local] Existing Instance DecimalRuntime.runtime.

(** X6, on two runs: [/data.yml] is a file and is recorded;
    [/aws/none.csv] is no file and the run writes nothing. *)
Lemma credentials_must_be_files_witness :
  (exists d,
     VDict (resolved_config (with_input_creds "/data.yml") Scenario.machine)
       = VDict d /\
     d !! "awsCredentialsFile" = Some (VStr "/data.yml")) /\
  written (run_script (with_input_creds "/aws/none.csv") Scenario.machine).1 = [].
Proof.
  split.
  - destruct (credentials_must_be_files (with_input_creds "/data.yml")
                Scenario.machine) as [Hgood _].
    destruct (configure (with_input_creds "/data.yml") Scenario.machine)
      as [tr [d0|o]] eqn:Hconf.
    + destruct (Hgood (VDict (resolved_config (with_input_creds "/data.yml")
                                Scenario.machine)))
        as (d & Hd & Hin & _).
      * eapply resolved_config_written; [exact Hconf | reflexivity].
      * exists d. split; [done|]. by destruct (Hin "/data.yml" eq_refl).
    + apply returns_stop in Hconf. vm_compute in Hconf. discriminate Hconf.
  - destruct (credentials_must_be_files (with_input_creds "/aws/none.csv")
                Scenario.machine) as [_ Hbad].
    destruct (Hbad "/aws/none.csv") as [Hwritten _].
    + by left.
    + vm_compute. reflexivity.
    + exact Hwritten.
Defined.

End CredentialRuns.

(** X7. The working directory when retention is not refused: in every
    pipeline configuration that a run writes, without
    [--save_working_dir] the working directory is [/scratch/working] and
    is removed after the run (for a local output directory too); with
    [--save_working_dir] and a local output directory it is [working]
    under the output directory and is kept. *)
Theorem working_directory_resolution `{PyRuntime} (a : Args) (w : World)
    (doc : pyval) :
  WriteYaml (config_file a w) doc ∈ (run_script a w).1 ->
  exists d,
    doc = VDict d /\
    (a.(save_working_dir) = false ->
       d !! "removeWorkingDir" = Some (VBool true) /\
       d !! "workingDirectory" = Some (VStr (path_join "/scratch" "working"))) /\
    (a.(save_working_dir) = true ->
     contains "s3://" (lower a.(output_dir)) = false ->
       d !! "removeWorkingDir" = Some (VBool false) /\
       d !! "workingDirectory"
         = Some (VStr (path_join a.(output_dir) "working"))).
Proof.
  intros (tr & d & Hconf & ->)%pipeline_write_inv.
  apply configure_inv in Hconf as (base & tr1 & tr2 & _ & Hmerge & _ & _).
  exists d. split; [done|]. by eapply merged_working_dir.
Qed.

(** [--save_working_dir] on the dry run of [Scenario]. *)
Definition retained_locally : Args :=
  Scenario.with_save_working_dir Scenario.dry_run.

Section WorkingDirRuns.
#[local] Existing Instance DecimalRuntime.float_type.
#[local] Existing Instance DecimalRuntime.runtime.

(** X7, on the dry run into [/out] with [--save_working_dir]: the base
    document's [/tmp/work] is replaced by [/out/working]. *)
Lemma working_directory_resolution_witness :
  exists d,
    VDict (resolved_config retained_locally Scenario.machine) = VDict d /\
    d !! "removeWorkingDir" = Some (VBool false) /\
    d !! "workingDirectory" = Some (VStr "/out/working").
Proof.
  destruct (configure retained_locally Scenario.machine) as [tr [d0|o]] eqn:Hconf.
  - destruct (working_directory_resolution retained_locally Scenario.machine
                (VDict (resolved_config retained_locally Scenario.machine)))
      as (d & Hd & _ & Hkept).
    + eapply resolved_config_written; [exact Hconf | reflexivity].
    + exists d. split; [done|]. by apply Hkept.
  - apply returns_stop in Hconf. vm_compute in Hconf. discriminate Hconf.
Defined.

End WorkingDirRuns.

Section ReportFacts.
Context `{PyRuntime}.
Variable a : Args.
Variable w : World.

(** The report of lines 191-205 on a configuration without a working
    directory entry. *)
Lemma report_key_error base tr d :
  override_merger a w base = (tr, inl d) ->
  d !! "workingDirectory" = None \/ d !! "removeWorkingDir" = None ->
  exists tr' k,
    report a d = (tr', inr (Raised (KeyError k))) /\
    (k = "workingDirectory" \/ k = "removeWorkingDir").
Proof.
  intros Hmerge Hmissing.
  destruct (merged_fixed a w _ _ _ Hmerge) as [Hout Hbatch].
  destruct (merged_directories a w _ _ _ Hmerge) as [Hcrash Hlog].
  unfold report, print_item, dict_get. rewrite Hbatch, Hout.
  destruct (d !! "workingDirectory") as [wd|] eqn:Hwd.
  - destruct Hmissing as [? | Hremove]; [done|].
    rewrite Hcrash, Hlog, Hremove.
    destruct (labels_given _); simpl; eauto.
  - destruct (labels_given _); simpl; eauto.
Qed.

End ReportFacts.

(** X8. A refused retention leans on the base document: when
    [--save_working_dir] is given, the output directory is remote and the
    base document has no [workingDirectory] or no [removeWorkingDir]
    entry, the report of lines 199-202 ends the run with KeyError for the
    missing entry.  Such a run writes nothing and starts no engine. *)
Theorem refused_retention_needs_base_entries `{PyRuntime} (a : Args) (w : World)
    (base : gmap string pyval) :
  a.(save_working_dir) = true ->
  contains "s3://" (lower a.(output_dir)) = true ->
  w.(yaml_load) (w.(realpath) a.(pipeline_file)) = inr (VDict base) ->
  base !! "workingDirectory" = None \/ base !! "removeWorkingDir" = None ->
  written (run_script a w).1 = [] /\
  engine_started (run_script a w).1 = false /\
  (forall tr d, override_merger a w base = (tr, inl d) ->
     exists tr' k,
       report a d = (tr', inr (Raised (KeyError k))) /\
       (k = "workingDirectory" \/ k = "removeWorkingDir")).
Proof.
  intros Hsave Hs3 Hload Hmissing.
  assert (forall tr d, override_merger a w base = (tr, inl d) ->
            d !! "workingDirectory" = None \/ d !! "removeWorkingDir" = None)
    as Hkept.
  { intros tr d Hmerge.
    destruct (merged_retention_refused a w _ _ _ "removeWorkingDir"
                Hmerge Hsave Hs3) as [_ Hremove]; [by left|].
    destruct (merged_retention_refused a w _ _ _ "workingDirectory"
                Hmerge Hsave Hs3) as [_ Hworking]; [by right|].
    rewrite Hremove, Hworking. tauto. }
  assert (forall tr d, configure a w <> (tr, inl d)) as Hstop.
  { intros tr d (base' & tr1 & tr2 & Hload' & Hmerge & Hreport & _)%configure_inv.
    rewrite Hload in Hload'. injection Hload' as <-.
    destruct (report_key_error a w _ _ _ Hmerge (Hkept _ _ Hmerge))
      as (tr' & k & Hraise & _).
    congruence. }
  destruct (configure_stops_quiet a w Hstop) as [Hwritten Hengine].
  repeat split; try done.
  intros tr d Hmerge. eapply report_key_error; eauto.
Qed.

(** A machine whose base pipeline document says nothing of the working
    directory. *)
Definition bare_machine : World :=
  Scenario.world
    [(Scenario.pipeline_path,
      VDict (list_to_map [("num_ants_threads", VInt 8)]));
     ("/data.yml", Scenario.two_subjects)]
    ["/bids"; "/out"] ["01"; "02"; "03"].

Section BareRuns.
#[local] Existing Instance DecimalRuntime.float_type.
#[local] Existing Instance DecimalRuntime.runtime.

(** X8, on the dry run into [s3://bucket/out] with [--save_working_dir]
    over that document. *)
Lemma refused_retention_needs_base_entries_witness :
  written (run_script retained_on_s3 bare_machine).1 = [] /\
  (run_script retained_on_s3 bare_machine).2
    = Raised (KeyError "workingDirectory").
Proof.
  destruct (refused_retention_needs_base_entries retained_on_s3 bare_machine
              (list_to_map [("num_ants_threads", VInt 8)]))
    as (Hwritten & _ & _).
  - reflexivity.
  - reflexivity.
  - reflexivity.
  - left. reflexivity.
  - split; [exact Hwritten | vm_compute; reflexivity].
Defined.

End BareRuns.

(** X9. A group run ends once the pipeline configuration is written:
    it prints the group message and exits with status 0 (or ends with the
    error of opening the file).  It reads no data configuration file,
    scans no BIDS layout, selects no participant and starts no engine,
    whatever the options for these are. *)
Theorem group_run_ends_after_pipeline_config `{PyRuntime} (a : Args) (w : World)
    (tr : list event) (d : gmap string pyval) :
  a.(analysis_level) = group ->
  configure a w = (tr, inl d) ->
  run_script a w
    = match w.(open_w) (config_file a w) with
      | Some e => (tr, Raised e)
      | None =>
          ((tr ++ [WriteYaml (config_file a w) (VDict d);
                   Print "Starting group level analysis of data in {0} using {1}"
                     [VStr a.(bids_dir); VStr (config_file a w)]])%list,
           Exit 0)
      end.
Proof.
  intros Hlevel Hconf.
  destruct (w.(open_w) (config_file a w)) as [e|] eqn:Hopen.
  - apply run_script_stop. unfold artifacts.
    rewrite (bind_run _ _ _ _ Hconf). simpl.
    unfold write_yaml. rewrite Hopen. simpl. by rewrite app_nil_r.
  - apply run_script_stop. unfold artifacts.
    rewrite (bind_run _ _ _ _ Hconf). simpl.
    unfold write_yaml. rewrite Hopen. simpl.
    unfold group_branch. by rewrite Hlevel.
Qed.

(** A group run with a data configuration file that does not exist and
    an index that is no number. *)
Definition group_with_leftovers : Args :=
  Scenario.with_participants (Some ["99"]) (Some "none")
    (Scenario.with_data_config "/missing.yml"
       (Scenario.args "/bids" "/out" group)).

Section GroupRuns.
#[local] Existing Instance DecimalRuntime.float_type.
#[local] Existing Instance DecimalRuntime.runtime.

(** X9, on that run: status 0, the pipeline configuration as the only
    file. *)
Lemma group_run_ends_after_pipeline_config_witness :
  (run_script group_with_leftovers Scenario.machine).2 = Exit 0 /\
  written (run_script group_with_leftovers Scenario.machine).1
    = ["/out/cpac_pipeline_config_20180521143000.yml"].
Proof.
  destruct (configure group_with_leftovers Scenario.machine)
    as [tr [d|o]] eqn:Hconf.
  - split; [|vm_compute; reflexivity].
    by rewrite (group_run_ends_after_pipeline_config group_with_leftovers
                  Scenario.machine tr d eq_refl Hconf).
  - apply returns_stop in Hconf. vm_compute in Hconf. discriminate Hconf.
Defined.

End GroupRuns.

(** ** The scan path's label handling (lines 244-262) *)

Section Labels.

(** Whether a string starts with one of [chars]. *)
Definition head_in (chars s : string) : bool :=
  match s with
  | EmptyString => false
  | String c _ => char_in c chars
  end.

Lemma lstrip_fixed chars s : head_in chars s = false -> lstrip chars s = s.
Proof. destruct s as [|c s]; simpl; [done|]. by intros ->. Qed.

Lemma lstrip_head chars s : head_in chars (lstrip chars s) = false.
Proof.
  induction s as [|c s IH]; simpl; [done|].
  destruct (char_in c chars) eqn:Hc; [done|]. simpl. by rewrite Hc.
Qed.

Lemma lstrip_length chars s :
  (String.length (lstrip chars s) <= String.length s)%nat.
Proof.
  induction s as [|c s IH]; simpl; [done|].
  destruct (char_in c chars); simpl; lia.
Qed.

Lemma lstrip_shorter chars s :
  head_in chars s = true -> lstrip chars s <> s.
Proof.
  destruct s as [|c s]; simpl; [done|]. intros -> Heq.
  pose proof (lstrip_length chars s) as Hlen.
  rewrite Heq in Hlen. simpl in Hlen. lia.
Qed.

End Labels.

(** X10. The normalisation of line 246, [sub.lstrip('sub-')], drops
    every leading character that is one of [s], [u], [b], [-], not the
    prefix ["sub-"].  It gives back a label exactly when the label starts
    with none of these four characters; a label with the marker in front
    normalises to the same string as the label without it, so a subject
    named [bob] or [s01] is looked up under [ob] or [01].  The result
    never starts with one of the four characters. *)
Theorem label_normalisation (label : string) :
  lstrip "sub-" ("sub-" ++ label) = lstrip "sub-" label /\
  (lstrip "sub-" label = label <-> head_in "sub-" label = false) /\
  head_in "sub-" (lstrip "sub-" label) = false /\
  lstrip "sub-" "sub-bob" = "ob".
Proof.
  repeat split.
  - intros Heq. destruct (head_in "sub-" label) eqn:Hhead; [|done].
    by apply lstrip_shorter in Hhead.
  - apply lstrip_fixed.
  - apply lstrip_head.
Qed.

Section Selection.
Context `{PyRuntime}.
Variable a : Args.

(** X11. Without labels (lines 261-262) the subject list is the
    discovered set with ["sub-"] put in front of every member: every
    discovered subject once, nothing else, and the list is empty exactly
    when nothing was discovered. *)
Theorem unlabelled_selection (subjects_bids : gset string) :
  labels_given a.(participant_label) = None ->
  exists subjects,
    select_subjects a subjects_bids = ([], inl subjects) /\
    (forall x, x ∈ subjects <-> exists sub, sub ∈ subjects_bids /\ x = "sub-" ++ sub) /\
    NoDup subjects /\
    length subjects = size subjects_bids /\
    (subjects = [] <-> subjects_bids = ∅).
Proof.
  intros Hnone. unfold select_subjects. rewrite Hnone.
  eexists. split; [reflexivity|]. repeat split.
  - intros (sub & -> & Hsub)%list_elem_of_fmap. exists sub.
    by apply elem_of_elements in Hsub.
  - intros (sub & Hsub & ->). apply list_elem_of_fmap. exists sub.
    by rewrite elem_of_elements.
  - apply NoDup_fmap_2; [|apply NoDup_elements].
    intros x y Hxy. by apply (append_inj_l "sub-").
  - by rewrite length_fmap.
  - intros Hnil. apply fmap_nil_inv in Hnil. apply elements_empty_inv in Hnil.
    by apply leibniz_equiv in Hnil.
  - intros ->. by rewrite elements_empty.
Qed.

End Selection.

Section SelectionRun.
#[local] Existing Instance DecimalRuntime.float_type.
#[local] Existing Instance DecimalRuntime.runtime.

(** X11, on the subjects 01, 02 and 03: three entries, [sub-02] among
    them. *)
Lemma unlabelled_selection_witness :
  exists subjects,
    select_subjects (Scenario.args "/bids" "/out" participant)
      (list_to_set ["01"; "02"; "03"]) = ([], inl subjects) /\
    "sub-02" ∈ subjects /\
    length subjects = 3%nat.
Proof.
  destruct (unlabelled_selection (Scenario.args "/bids" "/out" participant)
              (list_to_set ["01"; "02"; "03"]) eq_refl)
    as (subjects & Hrun & Hin & _ & Hlen & _).
  exists subjects. split; [exact Hrun|]. split.
  - apply Hin. exists "02". split; [set_solver | reflexivity].
  - rewrite Hlen. by vm_compute.
Defined.

End SelectionRun.

(** ** The manifest-file path and the dispatcher *)

(** The same machine with another BIDS layout. *)
Definition with_layout `{PyFloat} (w : World)
    (layout : string -> exn + list string) : World := {|
  version := w.(version);
  path_exists := w.(path_exists);
  path_isfile := w.(path_isfile);
  realpath := w.(realpath);
  yaml_load := w.(yaml_load);
  open_w := w.(open_w);
  st := w.(st);
  bids_layout := layout;
  import_cpac := w.(import_cpac);
  gui_run := w.(gui_run);
  import_nipype := w.(import_nipype);
  engine_run := w.(engine_run);
|}.

(** The engine calls of a trace, with their arguments. *)
Definition engine_calls `{PyFloat} (tr : list event)
  : list (string * string * string * Z * Z) :=
  omap (fun e => match e with
                 | EngineRun cf dcf plugin n m => Some (cf, dcf, plugin, n, m)
                 | _ => None
                 end) tr.

Section FilePath.
Context `{PyRuntime}.
Variable a : Args.
Variable w : World.

(** A file written elsewhere than at [config_file] is the data
    configuration, as the index selection has left it. *)
Lemma data_write_inv p doc :
  WriteYaml p doc ∈ (run_script a w).1 ->
  p <> config_file a w ->
  exists tr d tr1 dc0 tr2 name,
    configure a w = (tr, inl d) /\
    resolve_manifest a w d = (tr1, inl dc0) /\
    index_selection a w dc0 = (tr2, inl (doc, name)) /\
    p = artifact_path a name.
Proof.
  rewrite run_script_trace. unfold script. intros Hin Hp.
  apply elem_of_bind_trace in Hin as [Hin | (tr & r & _ & Hin)]; cycle 1.
  { pose proof (dispatch_trace a w r.1 r.2) as Hd.
    rewrite Forall_forall in Hd. by apply Hd in Hin. }
  unfold artifacts in Hin.
  apply elem_of_bind_trace in Hin as [Hin | (tr & d & Hconf & Hin)].
  { pose proof configure_quiet a w as Hq.
    rewrite Forall_forall in Hq. by destruct (Hq _ Hin). }
  apply elem_of_bind_trace in Hin as [Hin | (? & ? & _ & Hin)].
  { unfold write_yaml in Hin.
    apply elem_of_bind_trace in Hin as [Hin | (? & ? & _ & Hin)].
    - destruct (open_w w (config_file a w)); simpl in Hin; by apply elem_of_nil in Hin.
    - simpl in Hin. apply list_elem_of_singleton in Hin. by injection Hin as -> _. }
  apply elem_of_bind_trace in Hin as [Hin | (? & ? & _ & Hin)].
  { pose proof group_branch_quiet a w as Hq.
    rewrite Forall_forall in Hq. by destruct (Hq _ Hin). }
  apply elem_of_bind_trace in Hin as [Hin | (? & ? & _ & Hin)]; cycle 1.
  { simpl in Hin. by apply elem_of_nil in Hin. }
  unfold manifest in Hin.
  apply elem_of_bind_trace in Hin as [Hin | (tr1 & dc0 & Hres & Hin)].
  { pose proof (resolve_manifest_quiet a w d) as Hq.
    rewrite Forall_forall in Hq. by destruct (Hq _ Hin). }
  apply elem_of_bind_trace in Hin as [Hin | (tr2 & [dc name] & Hsel & Hin)].
  { pose proof (index_selection_quiet a w dc0) as Hq.
    rewrite Forall_forall in Hq. by destruct (Hq _ Hin). }
  apply elem_of_bind_trace in Hin as [Hin | (? & ? & _ & Hin)]; cycle 1.
  { simpl in Hin. by apply elem_of_nil in Hin. }
  unfold write_yaml in Hin.
  apply elem_of_bind_trace in Hin as [Hin | (? & ? & _ & Hin)].
  - destruct (open_w w _); simpl in Hin; by apply elem_of_nil in Hin.
  - simpl in Hin. apply list_elem_of_singleton in Hin. injection Hin as -> ->.
    by exists tr, d, tr1, dc0, tr2, name.
Qed.

Lemma data_config_written tr d dcf file doc :
  artifacts a w = (tr, inl (d, dcf)) ->
  arg_given a.(data_config_file) = Some file ->
  arg_given a.(participant_ndx) = None ->
  w.(yaml_load) (w.(realpath) file) = inr doc ->
  WriteYaml dcf doc ∈ (run_script a w).1.
Proof.
  intros Hart Hfile Hndx Hload.
  rewrite run_script_trace. unfold script. apply elem_of_bind_l.
  rewrite Hart. simpl.
  apply artifacts_inv in Hart as (tr1 & tr2 & _ & _ & _ & Hman & ->).
  apply manifest_inv in Hman as (dc0 & dc & name & tr3 & tr4 & Hres & Hsel & -> & _ & ->).
  unfold resolve_manifest in Hres. rewrite Hfile, Hload in Hres.
  injection Hres as _ <-.
  unfold index_selection in Hsel. rewrite Hndx in Hsel.
  injection Hsel as _ <- _.
  rewrite elem_of_app, elem_of_cons, !elem_of_app, list_elem_of_singleton. tauto.
Qed.

Lemma manifest_write_not_config tr d dcf :
  artifacts a w = (tr, inl (d, dcf)) -> dcf <> config_file a w.
Proof.
  intros (tr1 & tr2 & _ & _ & _ & Hman & _)%artifacts_inv.
  apply manifest_inv in Hman as (dc0 & dc & name & tr3 & tr4 & _ & Hsel & -> & _).
  apply artifact_path_neq. by apply index_selection_name in Hsel.
Qed.

Lemma dispatch_participant d dcf n x :
  a.(analysis_level) = participant ->
  w.(import_cpac) = None ->
  w.(import_nipype) = None ->
  d !! "maxCoresPerParticipant" = Some (VInt n) ->
  d !! "maximumMemoryPerParticipant" = Some (VFloat x) ->
  dispatch a w d dcf
    = match int_of_float x with
      | inl e => ([], inr (Raised e))
      | inr m =>
          ([Print "Starting participant level processing" [];
            EngineRun (config_file a w) dcf "MultiProc" n m],
           inr match w.(engine_run) (config_file a w) dcf with
               | Some e => Raised e
               | None => Exit 0
               end)
      end.
Proof.
  intros Hlevel Hcpac Hnipype Hcores Hmem. unfold dispatch, dict_get.
  rewrite Hlevel, Hcpac, Hnipype, Hcores, Hmem. simpl.
  destruct (int_of_float x) as [e|m]; simpl; [done|].
  by destruct (w.(engine_run) _ _).
Qed.

End FilePath.

(** X12. With a data configuration file, the BIDS layout is never
    consulted: the run is the same whatever a scan of the BIDS directory
    would find or raise. *)
Theorem layout_ignored_with_data_config `{PyRuntime} (a : Args) (w : World)
    (file : string) (layout : string -> exn + list string) :
  arg_given a.(data_config_file) = Some file ->
  run_script a (with_layout w layout) = run_script a w.
Proof.
  intros Hfile.
  unfold run_script, script, artifacts, manifest, resolve_manifest.
  rewrite Hfile. reflexivity.
Qed.

Section LayoutRuns.
#[local] Existing Instance DecimalRuntime.float_type.
#[local] Existing Instance DecimalRuntime.runtime.

(** X12, on the dry run of [Scenario] with a layout that cannot be
    built. *)
Lemma layout_ignored_with_data_config_witness :
  run_script Scenario.dry_run
    (with_layout Scenario.machine (fun _ => inl (CollaboratorError "BIDSLayout")))
  = run_script Scenario.dry_run Scenario.machine.
Proof.
  by apply (layout_ignored_with_data_config Scenario.dry_run Scenario.machine
              "/data.yml").
Defined.

End LayoutRuns.

(** X13. With a data configuration file and no participant index, the
    data configuration that the run writes is the document loaded from
    that file, unchanged, under the name [cpac_data_config_<st>.yml] in
    the artifact directory.  Participant labels do not enter it: on this
    path they are only printed. *)
Theorem data_config_written_as_loaded `{PyRuntime} (a : Args) (w : World)
    (file p : string) (doc : pyval) :
  arg_given a.(data_config_file) = Some file ->
  arg_given a.(participant_ndx) = None ->
  WriteYaml p doc ∈ (run_script a w).1 ->
  p <> config_file a w ->
  w.(yaml_load) (w.(realpath) file) = inr doc /\
  p = artifact_path a ("cpac_data_config_" ++ w.(st) ++ ".yml").
Proof.
  intros Hfile Hndx Hin Hp.
  destruct (data_write_inv a w p doc Hin Hp)
    as (tr & d & tr1 & dc0 & tr2 & name & _ & Hres & Hsel & ->).
  unfold resolve_manifest in Hres. rewrite Hfile in Hres.
  apply lift_sum_inv in Hres as [Hload _].
  unfold index_selection in Hsel. rewrite Hndx in Hsel.
  by injection Hsel as _ <- <-.
Qed.

(** The dry run of [Scenario] with labels that name no subject of
    [/data.yml]. *)
Definition labelled_dry_run : Args :=
  Scenario.with_participants (Some ["97"; "98"]) None Scenario.dry_run.

Section AsLoaded.
#[local] Existing Instance DecimalRuntime.float_type.
#[local] Existing Instance DecimalRuntime.runtime.

(** X13, on that run: the two subjects of [/data.yml] are written as
    they are. *)
Lemma data_config_written_as_loaded_witness :
  exists p,
    WriteYaml p Scenario.two_subjects
      ∈ (run_script labelled_dry_run Scenario.machine).1 /\
    p = "/out/cpac_data_config_20180521143000.yml".
Proof.
  destruct (artifacts labelled_dry_run Scenario.machine)
    as [tr [[d dcf]|o]] eqn:Hart.
  - assert (WriteYaml dcf Scenario.two_subjects
              ∈ (run_script labelled_dry_run Scenario.machine).1) as Hin.
    { eapply data_config_written; [exact Hart | reflexivity..]. }
    exists dcf. split; [exact Hin|].
    destruct (data_config_written_as_loaded labelled_dry_run Scenario.machine
                "/data.yml" dcf Scenario.two_subjects) as [_ ->];
      try done.
    eapply manifest_write_not_config. exact Hart.
  - apply returns_stop in Hart. vm_compute in Hart. discriminate Hart.
Defined.

End AsLoaded.

Section DispatchFacts.
Context `{PyRuntime}.
Variable a : Args.
Variable w : World.

Lemma written_app (tr1 tr2 : list event) :
  written (tr1 ++ tr2) = (written tr1 ++ written tr2)%list.
Proof. unfold written. apply omap_app. Qed.

Lemma engine_calls_app (tr1 tr2 : list event) :
  engine_calls (tr1 ++ tr2) = (engine_calls tr1 ++ engine_calls tr2)%list.
Proof. unfold engine_calls. apply omap_app. Qed.

Lemma engine_calls_none (tr : list event) :
  Forall (fun e => is_engine e = false) tr -> engine_calls tr = [].
Proof.
  induction 1 as [|e tr He _ IH]; [done|].
  destruct e; try exact IH. discriminate He.
Qed.

Lemma written_none (tr : list event) :
  Forall (fun e => is_write e = false) tr -> written tr = [].
Proof.
  induction 1 as [|e tr He _ IH]; [done|].
  destruct e; try exact IH. discriminate He.
Qed.

(** The files of a run that has reached the dispatcher. *)
Lemma artifacts_written tr d dcf :
  artifacts a w = (tr, inl (d, dcf)) -> written tr = [config_file a w; dcf].
Proof.
  intros (tr1 & tr2 & Hconf & _ & _ & Hman & ->)%artifacts_inv.
  apply manifest_inv in Hman as (dc0 & dc & name & tr3 & tr4 & Hres & Hsel & -> & _ & ->).
  pose proof (configure_quiet a w) as Hq1. rewrite Hconf in Hq1.
  pose proof (resolve_manifest_quiet a w d) as Hq3. rewrite Hres in Hq3.
  pose proof (index_selection_quiet a w dc0) as Hq4. rewrite Hsel in Hq4.
  simpl in *.
  rewrite written_app. simpl. rewrite !written_app.
  by rewrite (written_quiet _ Hq1), (written_quiet _ Hq3), (written_quiet _ Hq4).
Qed.

Lemma manifest_stops_quiet d tr o :
  manifest a w d = (tr, inr o) -> Forall quiet tr.
Proof.
  unfold manifest. intros Hrun.
  pose proof (resolve_manifest_quiet a w d) as Hq1.
  destruct (resolve_manifest a w d) as [tr1 [dc0|o1]]; simpl in *;
    [|by injection Hrun as <- _].
  pose proof (index_selection_quiet a w dc0) as Hq2.
  destruct (index_selection a w dc0) as [tr2 [[dc name]|o2]]; simpl in *;
    [|injection Hrun as <- _; by apply Forall_app].
  unfold write_yaml in Hrun.
  destruct (w.(open_w) (artifact_path a name)); simpl in Hrun; [|done].
  injection Hrun as <- _. rewrite app_nil_r. by apply Forall_app.
Qed.

(** The files of a run that has ended before the dispatcher. *)
Lemma artifacts_stopped_written tr o :
  artifacts a w = (tr, inr o) ->
  written tr = [] \/ written tr = [config_file a w].
Proof.
  unfold artifacts. intros Hrun.
  pose proof (configure_quiet a w) as Hq1.
  destruct (configure a w) as [tr1 [d|o1]]; simpl in *;
    [|injection Hrun as <- _; left; by apply written_quiet].
  unfold write_yaml in Hrun.
  destruct (w.(open_w) (config_file a w)); simpl in Hrun.
  { injection Hrun as <- _. left. rewrite app_nil_r. by apply written_quiet. }
  pose proof (group_branch_quiet a w) as Hq2.
  destruct (group_branch a w) as [tr2 [[]|o2]]; simpl in *.
  - destruct (manifest a w d) as [tr3 [dcf|o3]] eqn:Hman; simpl in Hrun; [done|].
    injection Hrun as <- _. right.
    rewrite written_app. simpl. rewrite written_app.
    rewrite (written_quiet _ Hq1), (written_quiet _ Hq2).
    by rewrite (written_quiet _ (manifest_stops_quiet _ _ _ Hman)).
  - injection Hrun as <- _. right.
    rewrite written_app. simpl.
    by rewrite (written_quiet _ Hq1), (written_quiet _ Hq2).
Qed.

Lemma py_int_trace (v : pyval) : (py_int v).1 = [].
Proof.
  destruct v; simpl; try done.
  - unfold lift_sum. by destruct (int_of_float _).
  - unfold lift_option. by destruct (int_of_str _).
Qed.

(** The dispatcher prints at most one line and starts the engine at most
    once, after that line, and only at the participant level. *)
Lemma dispatch_shape d dcf :
  (dispatch a w d dcf).1 = [] \/
  (exists msg vs, (dispatch a w d dcf).1 = [Print msg vs]) \/
  (a.(analysis_level) = participant /\
   exists n m,
     (dispatch a w d dcf).1
       = [Print "Starting participant level processing" [];
          EngineRun (config_file a w) dcf "MultiProc" n m]).
Proof.
  unfold dispatch.
  destruct a.(analysis_level); simpl; try (right; left; by eauto).
  destruct w.(import_cpac); simpl; [by left|].
  destruct w.(import_nipype); simpl; [by left|].
  unfold dict_get, lift_option.
  destruct (d !! "maxCoresPerParticipant") as [v1|]; simpl; [|by left].
  pose proof (py_int_trace v1) as H1.
  destruct (py_int v1) as [t1 [n|o1]]; simpl in *; subst t1; [|by left].
  destruct (d !! "maximumMemoryPerParticipant") as [v2|]; simpl; [|by left].
  pose proof (py_int_trace v2) as H2.
  destruct (py_int v2) as [t2 [m|o2]]; simpl in *; subst t2; [|by left].
  right; right. split; [done|]. exists n, m.
  by destruct (w.(engine_run) _ _).
Qed.

Lemma dispatch_engine_calls d dcf :
  (length (engine_calls (dispatch a w d dcf).1) <= 1)%nat /\
  (engine_calls (dispatch a w d dcf).1 <> [] ->
   a.(analysis_level) = participant).
Proof.
  destruct (dispatch_shape d dcf) as [->|[(msg & vs & ->)|(Hl & n & m & ->)]];
    simpl; (split; [lia|done]).
Qed.

Lemma dispatch_written d dcf : written (dispatch a w d dcf).1 = [].
Proof.
  by destruct (dispatch_shape d dcf) as [->|[(msg & vs & ->)|(Hl & n & m & ->)]].
Qed.

End DispatchFacts.

(** X14. A participant-level run whose two files are written and whose
    imports succeed hands the engine exactly these two files, the
    [MultiProc] plugin, the requested number of cores and the integer part
    of the resolved memory, after one line of output.  The run ends as the
    engine does: status 0 when it returns, its exception when it raises.
    When the resolved memory has no integer part ([int()] raises), the
    engine is not started. *)
Theorem participant_run_starts_engine `{PyRuntime} (a : Args) (w : World)
    (tr : list event) (d : gmap string pyval) (dcf : string) :
  artifacts a w = (tr, inl (d, dcf)) ->
  a.(analysis_level) = participant ->
  w.(import_cpac) = None ->
  w.(import_nipype) = None ->
  written tr = [config_file a w; dcf] /\
  engine_calls tr = [] /\
  exists n x,
    int_of_str a.(n_cpus) = Some n /\
    memory_resolution a x /\
    run_script a w
      = match int_of_float x with
        | inl e => (tr, Raised e)
        | inr m =>
            ((tr ++ [Print "Starting participant level processing" [];
                     EngineRun (config_file a w) dcf "MultiProc" n m])%list,
             match w.(engine_run) (config_file a w) dcf with
             | Some e => Raised e
             | None => Exit 0
             end)
        end.
Proof.
  intros Hart Hlevel Hcpac Hnipype.
  split; [by eapply artifacts_written|].
  split.
  { apply engine_calls_none. pose proof (artifacts_no_engine a w) as Hq.
    by rewrite Hart in Hq. }
  pose proof Hart as (tr1 & tr2 & Hconf & _)%artifacts_inv.
  apply configure_inv in Hconf as (base & tr3 & tr4 & _ & Hmerge & _).
  destruct (merged_cores a w base tr3 d Hmerge) as (n & v & t & Hn & _ & _ & Hcores & _).
  destruct (merged_memory a w base tr3 d Hmerge) as (x & Hx & Hmem).
  exists n, x. split; [done|]. split; [done|].
  rewrite (run_script_dispatch a w tr (d, dcf) Hart). simpl.
  rewrite (dispatch_participant a w d dcf n x Hlevel Hcpac Hnipype Hcores Hmem).
  destruct (int_of_float x) as [e|m]; simpl; [by rewrite app_nil_r | done].
Qed.

(** [run.py /bids /out participant --data_config_file /data.yml --n_cpus 4
    --mem_mb 2048] *)
Definition participant_run : Args :=
  Scenario.with_resources "4" (Some "2048") None
    (Scenario.with_data_config "/data.yml"
       (Scenario.args "/bids" "/out" participant)).

(** The path of the data configuration that a block has returned. *)
Definition data_file `{PyFloat} (m : M (gmap string pyval * string))
  : option string :=
  match m.2 with
  | inl r => Some r.2
  | inr _ => None
  end.

Section ParticipantRun.
#[local] Existing Instance DecimalRuntime.float_type.
#[local] Existing Instance DecimalRuntime.runtime.

(** X14, on that run: four cores, 2048 / 1024.0 = 2 GB. *)
Lemma participant_run_starts_engine_witness :
  (run_script participant_run Scenario.machine).2 = Exit 0 /\
  engine_calls (run_script participant_run Scenario.machine).1
    = [("/out/cpac_pipeline_config_20180521143000.yml",
        "/out/cpac_data_config_20180521143000.yml", "MultiProc", 4, 2)].
Proof.
  destruct (artifacts participant_run Scenario.machine)
    as [tr [[d dcf]|o]] eqn:Hart.
  - assert (data_file (artifacts participant_run Scenario.machine)
              = Some "/out/cpac_data_config_20180521143000.yml") as Hdcf
      by (vm_compute; reflexivity).
    rewrite Hart in Hdcf. simpl in Hdcf. injection Hdcf as ->.
    destruct (participant_run_starts_engine participant_run Scenario.machine
                tr d _ Hart)
      as (_ & Hquiet & n & x & Hn & Hx & ->); try reflexivity.
    vm_compute in Hn. injection Hn as <-.
    destruct Hx as (y & Hy & ->). vm_compute in Hy. injection Hy as <-.
    split; [reflexivity|].
    change (int_of_float _) with (@inr exn Z 2). cbv iota beta.
    unfold fst. rewrite engine_calls_app, Hquiet. reflexivity.
  - apply returns_stop in Hart. vm_compute in Hart. discriminate Hart.
Defined.

End ParticipantRun.

Section Order.
Context `{PyRuntime}.
Variable a : Args.
Variable w : World.

Lemma run_script_stopped tr o :
  artifacts a w = (tr, inr o) -> run_script a w = (tr, o).
Proof. unfold run_script, script. by intros ->. Qed.

Lemma artifacts_data_file tr d dcf :
  artifacts a w = (tr, inl (d, dcf)) -> exists name, dcf = artifact_path a name.
Proof.
  intros (tr1 & tr2 & _ & _ & _ & Hman & _)%artifacts_inv.
  apply manifest_inv in Hman as (dc0 & dc & name & tr3 & tr4 & _ & _ & -> & _).
  by exists name.
Qed.

End Order.

(** X15. The files of a run and the start of the engine come in one
    order.  A run writes nothing, or the pipeline configuration alone, or
    the pipeline configuration and then one data configuration in the
    artifact directory; no file is written twice and none after the engine
    has started.  The engine is started at most once, only at the
    participant level, as the last event of the run, on the two files
    written before. *)
Theorem files_then_engine `{PyRuntime} (a : Args) (w : World) :
  (engine_calls (run_script a w).1 = [] /\
   (written (run_script a w).1 = [] \/
    written (run_script a w).1 = [config_file a w] \/
    exists name,
      artifact_path a name <> config_file a w /\
      written (run_script a w).1 = [config_file a w; artifact_path a name])) \/
  (a.(analysis_level) = participant /\
   exists tr dcf n m,
     (run_script a w).1
       = (tr ++ [EngineRun (config_file a w) dcf "MultiProc" n m])%list /\
     engine_calls tr = [] /\
     dcf <> config_file a w /\
     written tr = [config_file a w; dcf]).
Proof.
  pose proof (artifacts_no_engine a w) as Hq.
  destruct (artifacts a w) as [tr [[d dcf]|o]] eqn:Hart; simpl in Hq.
  - rewrite (run_script_dispatch a w tr (d, dcf) Hart). simpl.
    pose proof (artifacts_written a w tr d dcf Hart) as Hw.
    pose proof (manifest_write_not_config a w tr d dcf Hart) as Hneq.
    destruct (artifacts_data_file a w tr d dcf Hart) as [name ->].
    destruct (dispatch_shape a w d (artifact_path a name))
      as [->|[(msg & vs & ->)|(Hl & n & m & ->)]].
    + left. rewrite app_nil_r, (engine_calls_none tr Hq), Hw.
      split; [done|]. right; right. by exists name.
    + left. rewrite engine_calls_app, written_app, (engine_calls_none tr Hq), Hw.
      simpl. split; [done|]. right; right. by exists name.
    + right. split; [done|].
      exists (tr ++ [Print "Starting participant level processing" []])%list,
        (artifact_path a name), n, m.
      rewrite <- app_assoc. split; [done|].
      rewrite engine_calls_app, written_app, (engine_calls_none tr Hq), Hw.
      by simpl.
  - rewrite (run_script_stopped a w tr o Hart). simpl. left.
    split; [by apply engine_calls_none|].
    destruct (artifacts_stopped_written a w tr o Hart) as [->| ->]; eauto.
Qed.

(** ** How a run can end *)

(** A block that ends the run by [sys.exit] does so with 0 or 1. *)
Definition exits_01 `{PyFloat} {A} (m : M A) : Prop :=
  match m.2 with
  | inr (Exit code) => code = 0 \/ code = 1
  | _ => True
  end.

Section Exits.
Context `{PyRuntime}.

Lemma bind_exits {A B} (m : M A) (f : A -> M B) :
  exits_01 m -> (forall x, exits_01 (f x)) -> exits_01 (bind m f).
Proof.
  unfold exits_01. destruct m as [tr [x|o]]; simpl; [|done].
  intros _ Hf. specialize (Hf x). by destruct (f x) as [tr2 r].
Qed.

Lemma dict_display_exits ns items acc : exits_01 (dict_display ns items acc).
Proof.
  revert acc. induction items as [|[x v] items IH]; intros acc; [done|].
  simpl. apply bind_exits.
  - unfold load_name.
    destruct (ns !! x); [done|]. by destruct (builtin_value x).
  - intros kv. apply bind_exits; [by destruct kv|]. intros k. apply IH.
Qed.

End Exits.

(** One step of a proof that a block exits with 0 or 1 only. *)
Ltac exit_step :=
  match goal with
  | |- exits_01 (bind _ _) => apply bind_exits; [|intros ?]
  | |- exits_01 (dict_display _ _ _) => apply dict_display_exits
  | |- exits_01 (ret _) => exact I
  | |- exits_01 (raise _) => exact I
  | |- exits_01 (emit _) => exact I
  | |- exits_01 (sys_exit 0) => by left
  | |- exits_01 (sys_exit 1) => by right
  | |- exits_01 (lift_option ?o _) => by destruct o
  | |- exits_01 (lift_sum ?o) => by destruct o
  | |- exits_01 (check_exn ?o) => by destruct o
  | |- exits_01 (match ?x with _ => _ end) => destruct x
  | |- exits_01 (let '(_, _) := ?x in _) => destruct x
  end.

Ltac exit_tac := autounfold with blocks; cbv zeta; repeat exit_step.

Section ExitBlocks.
Context `{PyRuntime}.
Variable a : Args.
Variable w : World.

Lemma configure_exits : exits_01 (configure a w).
Proof. exit_tac. Qed.

Lemma manifest_exits d : exits_01 (manifest a w d).
Proof. exit_tac. Qed.

Lemma dispatch_exits d dcf : exits_01 (dispatch a w d dcf).
Proof. exit_tac. Qed.

Lemma script_exits : exits_01 (script a w).
Proof.
  unfold script, artifacts.
  apply bind_exits; [|intros r; apply dispatch_exits].
  apply bind_exits; [apply configure_exits | intros d].
  apply bind_exits; [exit_tac | intros _].
  apply bind_exits; [exit_tac | intros _].
  apply bind_exits; [apply manifest_exits | by intros dcf].
Qed.

End ExitBlocks.

(** X16. A run ends in one of three ways: [sys.exit(0)] (or the end of
    the script), [sys.exit(1)], or an uncaught exception.  No path of the
    script exits with another status. *)
Theorem run_ends_with_0_or_1 `{PyRuntime} (a : Args) (w : World) :
  (run_script a w).2 = Exit 0 \/
  (run_script a w).2 = Exit 1 \/
  exists e, (run_script a w).2 = Raised e.
Proof.
  pose proof (script_exits a w) as Hexit.
  unfold run_script, exits_01 in *.
  destruct (script a w) as [tr [[]|[code|e]]]; simpl in *; [by left| |by eauto].
  destruct Hexit as [-> | ->]; auto.
Qed.
